(** * Job tracking and result reconciliation of the extraction gateway

    Shallow embedding of
    - [api-server/src/extraction/extraction.service.ts]
      ([ExtractionService.startExtraction], [getExtractionStatus],
       [updateJobResult], [getJobFromCache], the process-wide [jobResultsMap]);
    - the extraction controller ([extractDocument], [updateExtractionResult]);
    - the job record queries ([createExtractionJob], [updateExtractionJob],
      [getExtractionJobById]);
    - the storage adapter ([uploadFile], [fileExists], [getFileBuffer],
      [getSignedDownloadUrl], [extractKeyFromUrl]);
    - the status and original-file endpoints of the extraction controller
      and [StorageController.getSignedUrl].

    Asynchronous code becomes a state-and-exception monad: the [State] holds
    the in-memory job map, the job record table, the bucket's objects, the
    log and a trace of blob adapter calls; the read-only [Env] holds the
    faults of the external stores and the engine's status endpoint.  The
    engine's reply to an extraction request is an input of the operation.
    [JSON.stringify], [JSON.parse], [new URL(url).pathname] and the URL
    presigner are section variables. *)

From Stdlib Require Import Ascii.
From stdpp Require Import base gmap strings list fin_maps.

Local Open Scope stdpp_scope.

(** ** Data model ([extraction.interface]) *)

Record TableData := mkTable {
  tableName : string;
  headers : list string;
  rows : list (list string)
}.

Record ExtractionResult := mkResult {
  tables : list TableData;
  summary : string
}.

(** Status of an entry of [jobResultsMap]: the map's type allows only these. *)
Inductive CacheStatus := CCompleted | CFailed.

(** Status of an [ExtractionStatusResponse]. *)
Inductive JobStatus := Pending | Processing | Completed | Failed.

Definition status_of_cache (s : CacheStatus) : JobStatus :=
  match s with CCompleted => Completed | CFailed => Failed end.

(** Entry of [jobResultsMap]; [undefined] fields are [None]. *)
Record CacheEntry := mkEntry {
  ce_status : CacheStatus;
  ce_fileUrl : string;
  ce_fileName : option string;
  ce_data : option ExtractionResult;
  ce_error : option string
}.

Record ExtractionResponse := mkResponse {
  er_success : bool;
  er_message : string;
  er_job_id : option string;
  er_file_url : option string;
  er_data : option ExtractionResult
}.

Record ExtractionStatusResponse := mkStatus {
  sr_job_id : string;
  sr_status : JobStatus;
  sr_file_url : option string;
  sr_data : option ExtractionResult;
  sr_error : option string
}.

(** A row of [extraction_jobs] as [ExtractedFile] returns it. *)
Record ExtractedFile := mkFile {
  ef_id : string;
  ef_userId : string;
  ef_fileName : string;
  ef_fileUrl : string;
  ef_status : string;
  ef_error : option string;
  ef_result : option ExtractionResult
}.

(** ** Errors *)

(** An HTTP response carried by an axios error. *)
Record HttpResponse := mkHttp { hr_status : nat; hr_detail : option string }.

(** A JavaScript [Error] as the catch blocks inspect it:
    [error.message], [error.code], [error.response]. *)
Record JsError := mkJsError {
  err_message : string;
  err_code : option string;
  err_response : option HttpResponse
}.

(** What a call may throw: a plain error, or a NestJS HTTP exception. *)
Inductive Exn :=
  | ErrJs (e : JsError)
  | BadRequestException (msg : string)
  | InternalServerErrorException (msg : string).

Definition exn_message (e : Exn) : string :=
  match e with
  | ErrJs j => err_message j
  | BadRequestException m => m
  | InternalServerErrorException m => m
  end.

Definition exn_code (e : Exn) : option string :=
  match e with ErrJs j => err_code j | _ => None end.

Definition exn_response (e : Exn) : option HttpResponse :=
  match e with ErrJs j => err_response j | _ => None end.

Definition plain_error (msg : string) : Exn := ErrJs (mkJsError msg None None).

(** ** [encodeURIComponent] on the bytes of a string *)

Definition is_unreserved (c : ascii) : bool :=
  let n := nat_of_ascii c in
  ((48 <=? n) && (n <=? 57)) || ((65 <=? n) && (n <=? 90))
  || ((97 <=? n) && (n <=? 122))
  || bool_decide (c ∈ String.list_ascii_of_string "-_.!~*'()").

Definition hex_digit (n : nat) : ascii :=
  if n <? 10 then ascii_of_nat (48 + n) else ascii_of_nat (55 + n).

Fixpoint encodeURIComponent (s : string) : string :=
  match s with
  | EmptyString => EmptyString
  | String c s' =>
      if is_unreserved c then String c (encodeURIComponent s')
      else String "%" (String (hex_digit (nat_of_ascii c / 16))
             (String (hex_digit (nat_of_ascii c mod 16)) (encodeURIComponent s')))
  end.

(** ** Blob keys *)

Definition original_key (jobId fileName : string) : string :=
  "originals/" +:+ jobId +:+ "/" +:+ encodeURIComponent fileName.

Definition output_key (jobId fileName : string) : string :=
  "output/" +:+ jobId +:+ "/" +:+ encodeURIComponent fileName +:+ ".json".

Definition legacy_output_key (jobId fileName : string) : string :=
  "output/" +:+ jobId +:+ "/" +:+ fileName +:+ ".json".

(** ** The world the gateway runs in *)

(** One call on the blob adapter, for call-count instrumentation. *)
Inductive BlobCall :=
  | CallUpload (key : string)
  | CallExists (key : string)
  | CallGet (key : string).

(** Warnings and errors written to the logger ([log] lines are omitted). *)
Inductive LogLine := LogWarn (msg : string) | LogError (msg : string).

(** Mutable state: the process-wide [jobResultsMap], the [extraction_jobs]
    table, the bucket's objects, and what was observed of the run. *)
Record State := mkState {
  jobResultsMap : gmap string CacheEntry;
  extraction_jobs : gmap string ExtractedFile;
  bucket : gmap string string;
  blob_calls : list BlobCall;
  logs : list LogLine
}.

(** Read-only environment: faults of the external stores, the engine's
    status endpoint, and the storage configuration. *)
Record Env := mkEnv {
  blob_write_fails : bool;
  blob_read_fails : bool;
  db_read_fails : bool;
  db_write_fails : bool;
  remote_status : string -> Exn + ExtractionStatusResponse;
  bucketName : string;
  endpoint : string
}.

Definition set_cache (m : gmap string CacheEntry) (s : State) : State :=
  mkState m (extraction_jobs s) (bucket s) (blob_calls s) (logs s).
Definition set_jobs (m : gmap string ExtractedFile) (s : State) : State :=
  mkState (jobResultsMap s) m (bucket s) (blob_calls s) (logs s).
Definition set_bucket (m : gmap string string) (s : State) : State :=
  mkState (jobResultsMap s) (extraction_jobs s) m (blob_calls s) (logs s).
Definition add_call (c : BlobCall) (s : State) : State :=
  mkState (jobResultsMap s) (extraction_jobs s) (bucket s) (blob_calls s ++ [c]) (logs s).
Definition add_log (l : LogLine) (s : State) : State :=
  mkState (jobResultsMap s) (extraction_jobs s) (bucket s) (blob_calls s) (logs s ++ [l]).

(** ** A state and exception monad for [async] code *)

Definition M (A : Type) : Type := Env -> State -> (Exn + A) * State.

Definition ret {A} (a : A) : M A := fun _ s => (inr a, s).
Definition bind {A B} (m : M A) (f : A -> M B) : M B :=
  fun env s => match m env s with
               | (inl e, s') => (inl e, s')
               | (inr a, s') => f a env s'
               end.
Definition throw {A} (e : Exn) : M A := fun _ s => (inl e, s).
(** [try { m } catch (error) { h(error) }]: effects of [m] before the throw stay. *)
Definition try_catch {A} (m : M A) (h : Exn -> M A) : M A :=
  fun env s => match m env s with
               | (inl e, s') => h e env s'
               | (inr a, s') => (inr a, s')
               end.
Definition modify (f : State -> State) : M unit := fun _ s => (inr tt, f s).
Definition gets {A} (f : State -> A) : M A := fun _ s => (inr (f s), s).
Definition asks {A} (f : Env -> A) : M A := fun env s => (inr (f env), s).

Notation "'let*' x := m 'in' k" := (bind m (fun x => k))
  (at level 200, x name, m at level 200, k at level 200).

Definition log_warn (msg : string) : M unit := modify (add_log (LogWarn msg)).
Definition log_error (msg : string) : M unit := modify (add_log (LogError msg)).

(** ** In-memory job map *)

Definition jobResultsMap_get (jobId : string) : M (option CacheEntry) :=
  gets (fun s => jobResultsMap s !! jobId).

Definition jobResultsMap_set (jobId : string) (e : CacheEntry) : M unit :=
  modify (fun s => set_cache (<[jobId := e]> (jobResultsMap s)) s).

(** ** Storage adapter ([StorageService]) *)

(** The virtual-hosted-style URL [uploadFile] returns. *)
Definition object_url (env : Env) (key : string) : string :=
  "https://" +:+ bucketName env +:+ "." +:+ endpoint env +:+ "/" +:+ key.

Definition uploadFile (key body : string) : M string :=
  let* _ := modify (add_call (CallUpload key)) in
  let* fails := asks blob_write_fails in
  if fails then
    let* _ := log_error "Failed to upload file: S3 unavailable" in
    throw (plain_error "Failed to upload file: S3 unavailable")
  else
    let* _ := modify (fun s => set_bucket (<[key := body]> (bucket s)) s) in
    asks (fun env => object_url env key).

(** [HeadObject]: [NotFound] gives [false], any other failure is rethrown. *)
Definition fileExists (key : string) : M bool :=
  let* _ := modify (add_call (CallExists key)) in
  let* fails := asks blob_read_fails in
  if fails then throw (plain_error "S3 unavailable")
  else gets (fun s => bool_decide (is_Some (bucket s !! key))).

Definition getFileBuffer (key : string) : M string :=
  let* _ := modify (add_call (CallGet key)) in
  let* fails := asks blob_read_fails in
  if fails then throw (plain_error "S3 unavailable")
  else let* o := gets (fun s => bucket s !! key) in
       match o with
       | Some body => ret body
       | None => throw (plain_error "The specified key does not exist.")
       end.

(** ** Job record queries ([extraction-queries]) *)

Definition getExtractionJobById (jobId : string) : M (option ExtractedFile) :=
  let* fails := asks db_read_fails in
  if fails then throw (plain_error "database unavailable")
  else gets (fun s => extraction_jobs s !! jobId).

Definition createExtractionJob (userId fileName fileUrl jobId : string)
    : M ExtractedFile :=
  let* fails := asks db_write_fails in
  if fails then throw (plain_error "database unavailable")
  else let* o := gets (fun s => extraction_jobs s !! jobId) in
       match o with
       | Some _ =>
           throw (plain_error "duplicate key value violates unique constraint")
       | None =>
           let row := mkFile jobId userId fileName fileUrl "pending" None None in
           let* _ := modify (fun s => set_jobs (<[jobId := row]> (extraction_jobs s)) s) in
           ret row
       end.

(** [result] / [error] are written only when not [undefined]. *)
Definition updateExtractionJob (jobId status : string)
    (result : option ExtractionResult) (error : option string)
    : M (option ExtractedFile) :=
  let* fails := asks db_write_fails in
  if fails then throw (plain_error "database unavailable")
  else let* o := gets (fun s => extraction_jobs s !! jobId) in
       match o with
       | None => ret None
       | Some r =>
           let r' := mkFile (ef_id r) (ef_userId r) (ef_fileName r) (ef_fileUrl r)
                       status
                       (match error with Some _ => error | None => ef_error r end)
                       (match result with Some _ => result | None => ef_result r end) in
           let* _ := modify (fun s => set_jobs (<[jobId := r']> (extraction_jobs s)) s) in
           ret (Some r')
       end.

(** ** Extraction service and controller *)

(** What the extraction endpoint of the engine answers: the body of a
    2xx response ([response.data], possibly [null]), or the axios error. *)
Inductive EngineReply :=
  | EngineData (data : option ExtractionResult)
  | EngineError (e : JsError).

(** A file received by the multipart interceptor. *)
Record UploadedFile := mkUploaded {
  originalname : string;
  buffer : string;
  mimetype : string
}.

Record UpdateResponse := mkUpdate { ur_success : bool; ur_message : string }.

(** [a || b] on strings: [""] is falsy. *)
Definition or_else (a b : string) : string :=
  if bool_decide (a = "") then b else a.

Definition str_eqb (a b : string) : bool := bool_decide (a = b).

Section Gateway.

Variable JSON_stringify : ExtractionResult -> string.
(** [None] when [JSON.parse] throws. *)
Variable JSON_parse : string -> option ExtractionResult.

(** The awaited POST; reading [extractionResult.tables?.length] on a [null]
    body throws a [TypeError]. *)
Definition callEngine (reply : EngineReply) : M ExtractionResult :=
  match reply with
  | EngineError e => throw (ErrJs e)
  | EngineData None =>
      throw (plain_error "Cannot read properties of null (reading 'tables')")
  | EngineData (Some r) => ret r
  end.

(** The error translation of the [catch] block of [startExtraction]. *)
Definition startExtraction_rethrow (error : Exn) : M ExtractionResponse :=
  match exn_response error with
  | Some resp =>
      throw (BadRequestException (or_else (default "" (hr_detail resp)) "Extraction failed"))
  | None =>
      let code := default "" (exn_code error) in
      if str_eqb code "ECONNREFUSED" then
        throw (InternalServerErrorException
          "Python extraction service is not running. Please start the API service on port 8000.")
      else if str_eqb code "ETIMEDOUT" || str_eqb code "ECONNABORTED" then
        throw (InternalServerErrorException
          "Request to Python service timed out. Please try again.")
      else throw (InternalServerErrorException "Document extraction failed")
  end.

(** [ExtractionService.startExtraction]; [jobId] is the freshly generated
    [job_${Date.now()}_${random}], [reply] what the engine answers. *)
Definition startExtraction (fileBuffer fileName mimeType userId targetLanguage : string)
    (preserveNames : bool) (jobId : string) (reply : EngineReply)
    : M ExtractionResponse :=
  try_catch
    (let* originalUrl := uploadFile (original_key jobId fileName) fileBuffer in
     let* extractionResult := callEngine reply in
     let* _ := uploadFile (output_key jobId fileName) (JSON_stringify extractionResult) in
     let* _ := jobResultsMap_set jobId
                 (mkEntry CCompleted originalUrl (Some fileName) (Some extractionResult) None) in
     ret (mkResponse true "Extraction completed" (Some jobId) (Some originalUrl)
            (Some extractionResult)))
    (fun error =>
     let* _ := log_error ("Extraction failed for job " +:+ jobId +:+ ": " +:+ exn_message error) in
     let* _ := jobResultsMap_set jobId
                 (mkEntry CFailed "" (Some fileName) None (Some (exn_message error))) in
     startExtraction_rethrow error).

Definition response_of_entry (jobId : string) (c : CacheEntry) : ExtractionStatusResponse :=
  mkStatus jobId (status_of_cache (ce_status c)) (Some (ce_fileUrl c)) (ce_data c) (ce_error c).

(** One iteration of the [for (const outputKey of keysToTry)] loop:
    [None] is [continue] (also after a caught error), [Some] is [return]. *)
Definition tryOutputKey (jobId fileName outputKey : string)
    : M (option ExtractionStatusResponse) :=
  try_catch
    (let* fileExists_ := fileExists outputKey in
     if negb fileExists_ then ret None
     else
       let* jsonBuffer := getFileBuffer outputKey in
       match JSON_parse jsonBuffer with
       | None => throw (plain_error "Unexpected token in JSON")
       | Some data =>
           let* _ := jobResultsMap_set jobId (mkEntry CCompleted "" (Some fileName) (Some data) None) in
           ret (Some (mkStatus jobId Completed (Some "") (Some data) None))
       end)
    (fun s3Error =>
     let* _ := log_warn ("Failed to fetch from S3 with key " +:+ outputKey +:+ ": "
                         +:+ exn_message s3Error) in
     ret None).

Fixpoint probeKeys (jobId fileName : string) (keysToTry : list string)
    : M (option ExtractionStatusResponse) :=
  match keysToTry with
  | [] => ret None
  | outputKey :: rest =>
      let* r := tryOutputKey jobId fileName outputKey in
      match r with
      | Some resp => ret (Some resp)
      | None => probeKeys jobId fileName rest
      end
  end.

Definition keysToTry (jobId fileName : string) : list string :=
  [output_key jobId fileName; legacy_output_key jobId fileName].

(** The error translation of the [catch] block of [getExtractionStatus]. *)
Definition getExtractionStatus_rethrow (error : Exn) : M ExtractionStatusResponse :=
  match exn_response error with
  | Some resp =>
      if hr_status resp =? 404 then throw (BadRequestException "Job not found")
      else throw (InternalServerErrorException "Failed to get extraction status")
  | None =>
      if str_eqb (default "" (exn_code error)) "ECONNREFUSED" then
        throw (InternalServerErrorException "Python extraction service is not running.")
      else throw (InternalServerErrorException "Failed to get extraction status")
  end.

(** [ExtractionService.getExtractionStatus]. *)
Definition getExtractionStatus (jobId : string) : M ExtractionStatusResponse :=
  try_catch
    (let* cachedResult := jobResultsMap_get jobId in
     match cachedResult with
     | Some c => ret (response_of_entry jobId c)
     | None =>
         let* fileName :=
           try_catch
             (let* dbJob := getExtractionJobById jobId in ret (ef_fileName <$> dbJob))
             (fun dbError =>
              let* _ := log_warn ("Failed to get job from DB: " +:+ exn_message dbError) in
              ret None) in
         let* found :=
           match fileName with
           | Some fn =>
               if bool_decide (fn = "") then ret None
               else probeKeys jobId fn (keysToTry jobId fn)
           | None => ret None
           end in
         match found with
         | Some resp => ret resp
         | None =>
             let* reply := asks (fun env => remote_status env jobId) in
             match reply with
             | inl e => throw e
             | inr data => ret data
             end
         end
     end)
    (fun error =>
     let* _ := log_error ("Failed to get extraction status: " +:+ exn_message error) in
     getExtractionStatus_rethrow error).

(** [ExtractionService.updateJobResult]. *)
Definition updateJobResult (jobId : string) (data : ExtractionResult)
    (fileUrl : string) (fileName : option string) : M unit :=
  jobResultsMap_set jobId (mkEntry CCompleted fileUrl fileName (Some data) None).

(** [ExtractionService.getJobFromCache]. *)
Definition getJobFromCache (jobId : string) : M (option CacheEntry) :=
  jobResultsMap_get jobId.

(** [ExtractionController.extractDocument]; [sessionUser] is
    [request.user?.id], [jobId] and [reply] are passed to [startExtraction]. *)
Definition extractDocument (file : option UploadedFile) (sessionUser : option string)
    (target_language : option string) (preserve_names : option bool)
    (jobId : string) (reply : EngineReply) : M ExtractionResponse :=
  match file with
  | None => throw (BadRequestException "No file uploaded")
  | Some f =>
      let userId := or_else (default "" sessionUser) "test-user" in
      let targetLanguage := or_else (default "" target_language) "en" in
      let preserveNames := negb (bool_decide (preserve_names = Some false)) in
      let* extractionResult :=
        startExtraction (buffer f) (originalname f) (mimetype f) userId
          targetLanguage preserveNames jobId reply in
      let* _ :=
        match er_job_id extractionResult with
        | Some j =>
            if bool_decide (j = "") then ret tt
            else try_catch
                   (let* _ := createExtractionJob userId (originalname f)
                                (or_else (default "" (er_file_url extractionResult)) "") j in
                    ret tt)
                   (fun dbError =>
                    log_warn ("Failed to create job record in database: " +:+ exn_message dbError))
        | None => ret tt
        end in
      ret extractionResult
  end.

(** [ExtractionController.updateExtractionResult]; [body.data] is [None]
    when falsy. *)
Definition updateExtractionResult (jobId : string) (body_data : option ExtractionResult)
    : M UpdateResponse :=
  try_catch
    (match body_data with
     | None =>
         let* _ := log_error "No data provided in request body" in
         throw (BadRequestException "No data provided")
     | Some data =>
         let* job := getExtractionJobById jobId in
         let* job :=
           match job with
           | Some j => ret (Some j)
           | None =>
               let* cachedJob := getJobFromCache jobId in
               match cachedJob with
               | Some c =>
                   let* _ := createExtractionJob "unknown" "unknown"
                               (or_else (ce_fileUrl c) "") jobId in
                   getExtractionJobById jobId
               | None => ret None
               end
           end in
         match job with
         | None =>
             let* _ := log_error ("Job not found: " +:+ jobId) in
             throw (BadRequestException "Job not found")
         | Some j =>
             let fileName := ef_fileName j in
             let* _ := uploadFile (output_key jobId fileName) (JSON_stringify data) in
             let* _ := updateExtractionJob jobId "completed" (Some data) None in
             let* _ := updateJobResult jobId data (ef_fileUrl j) (Some (ef_fileName j)) in
             ret (mkUpdate true "Extraction result updated successfully")
         end
     end)
    (fun error =>
     let* _ := log_error ("Failed to update extraction result for job " +:+ jobId +:+ ": "
                          +:+ exn_message error) in
     throw (BadRequestException ("Failed to update extraction result: " +:+ exn_message error))).

End Gateway.

(** ** Status endpoint of [ExtractionController] *)

(** [updateExtractionJob] with [result] as its [any] parameter: [None] is
    [undefined] (the column is kept), [Some None] is [null] (the column is
    cleared). [updateExtractionJob] above is its use with no [null]. *)
Definition updateExtractionJob_any (jobId status : string)
    (result : option (option ExtractionResult)) (error : option string)
    : M (option ExtractedFile) :=
  let* fails := asks db_write_fails in
  if fails then throw (plain_error "database unavailable")
  else let* o := gets (fun s => extraction_jobs s !! jobId) in
       match o with
       | None => ret None
       | Some r =>
           let r' := mkFile (ef_id r) (ef_userId r) (ef_fileName r) (ef_fileUrl r)
                       status
                       (match error with Some _ => error | None => ef_error r end)
                       (match result with Some v => v | None => ef_result r end) in
           let* _ := modify (fun s => set_jobs (<[jobId := r']> (extraction_jobs s)) s) in
           ret (Some r')
       end.

(** The string literal of a [JobStatus]. *)
Definition job_status_string (st : JobStatus) : string :=
  match st with
  | Pending => "pending"
  | Processing => "processing"
  | Completed => "completed"
  | Failed => "failed"
  end.

Section Controller.

Variable JSON_parse : string -> option ExtractionResult.

(** [ExtractionController.getExtractionStatus]: [status.data || null] and
    [status.error || undefined]. *)
Definition ExtractionController_getExtractionStatus (jobId : string)
    : M ExtractionStatusResponse :=
  let* status := getExtractionStatus JSON_parse jobId in
  let* _ :=
    match sr_status status with
    | Completed | Failed =>
        try_catch
          (let* _ := updateExtractionJob_any jobId (job_status_string (sr_status status))
                       (Some (sr_data status))
                       (match sr_error status with
                        | Some e => if bool_decide (e = "") then None else Some e
                        | None => None
                        end) in
           ret tt)
          (fun dbError =>
           log_warn ("Failed to update job record in database: " +:+ exn_message dbError))
    | _ => ret tt
    end in
  ret status.

End Controller.

(** ** [StorageService.extractKeyFromUrl] and the endpoints that use it *)

(** [s.startsWith(p)]. *)
Definition startsWith (s p : string) : bool := String.prefix p s.

(** [s.substring(n)]. *)
Definition substring_from (n : nat) (s : string) : string :=
  String.substring n (String.length s - n) s.

(** [s.replace(pat, rep)] with a string pattern: the first occurrence only. *)
Definition replace_first (pat rep s : string) : string :=
  match String.index 0 pat s with
  | None => s
  | Some i => String.substring 0 i s +:+ rep +:+ substring_from (i + String.length pat) s
  end.

(** [s.split(sep)] with a one-character separator. *)
Fixpoint split_on (sep : ascii) (s : string) : list string :=
  match s with
  | EmptyString => [EmptyString]
  | String c s' =>
      let parts := split_on sep s' in
      if bool_decide (c = sep) then EmptyString :: parts
      else match parts with
           | p :: ps => String c p :: ps
           | [] => [String c EmptyString]
           end
  end.

(** [parts.join(sep)]. *)
Fixpoint join_with (sep : string) (parts : list string) : string :=
  match parts with
  | [] => EmptyString
  | p :: ps =>
      match ps with
      | [] => p
      | _ :: _ => p +:+ sep +:+ join_with sep ps
      end
  end.

(** The [TypeError] of [new URL] on an unparsable string. *)
Definition invalid_url : Exn := ErrJs (mkJsError "Invalid URL" (Some "ERR_INVALID_URL") None).

(** The reply of [StorageController.getSignedUrl]; the [received: body]
    echo of the first case is not modelled. *)
Inductive SignedUrlReply :=
  | SignedUrl (url : string)
  | SignedUrlError (error : string)
  | FileUrlRequired.

Section Storage.

(** [new URL(url).pathname]; [None] when the constructor throws. *)
Variable URL_pathname : string -> option string.
(** The presigner [getSignedUrl(s3Client, new GetObjectCommand({ Bucket, Key }),
    { expiresIn })]. *)
Variable getSignedUrl : string -> string -> nat -> Exn + string.

(** [StorageService.extractKeyFromUrl], for the service's [bucketName]. *)
Definition extractKeyFromUrl (bucketName url : string) : Exn + string :=
  if startsWith url "s3://" then
    let parts := split_on "/" (replace_first "s3://" "" url) in
    inr (join_with "/" (tail parts))
  else
    match URL_pathname url with
    | None => inl invalid_url
    | Some p =>
        let pathname := substring_from 1 p in
        let pathname :=
          if startsWith pathname "/" then substring_from 1 pathname else pathname in
        let pathname :=
          if startsWith pathname (bucketName +:+ "/")
          then substring_from (String.length bucketName + 1) pathname
          else pathname in
        inr pathname
    end.

Definition extractKeyFromUrl_M (url : string) : M string :=
  fun env s => (extractKeyFromUrl (bucketName env) url, s).

(** [StorageService.getSignedDownloadUrl]. *)
Definition getSignedDownloadUrl (key : string) (expiresIn : nat) : M string :=
  let* Bucket := asks bucketName in
  match getSignedUrl Bucket key expiresIn with
  | inr url => ret url
  | inl error =>
      let* _ := log_error ("Failed to generate signed URL: " +:+ exn_message error) in
      throw (plain_error ("Failed to generate signed URL: " +:+ exn_message error))
  end.

(** [ExtractionController.getOriginalFileUrl]; [None] is [{ url: null }]. *)
Definition getOriginalFileUrl (jobId : string) : M (option string) :=
  try_catch
    (let* job := getExtractionJobById jobId in
     match job with
     | None => ret None
     | Some j =>
         let fileUrl := ef_fileUrl j in
         if bool_decide (fileUrl = "") then ret None
         else
           let* key := extractKeyFromUrl_M fileUrl in
           let* signedUrl := getSignedDownloadUrl key 3600 in
           ret (Some signedUrl)
     end)
    (fun error =>
     let* _ := log_error ("Failed to get original file URL for job " +:+ jobId +:+ ": "
                          +:+ exn_message error) in
     ret None).

(** [StorageController.getSignedUrl]; [body_fileUrl] is [body?.fileUrl]. *)
Definition StorageController_getSignedUrl (body_fileUrl : option string) : M SignedUrlReply :=
  match body_fileUrl with
  | None => ret FileUrlRequired
  | Some fileUrl =>
      if bool_decide (fileUrl = "") then ret FileUrlRequired
      else
        try_catch
          (let* key := extractKeyFromUrl_M fileUrl in
           let* url := getSignedDownloadUrl key 3600 in
           ret (SignedUrl url))
          (fun error => ret (SignedUrlError (exn_message error)))
  end.

End Storage.

(** ** A concrete deployment for tests *)

Module Fixture.

Definition table1 : TableData := mkTable "Page 1 Table 1" ["Name"; "Age"] [["Ann"; "30"]].
Definition table1' : TableData := mkTable "Page 1 Table 1" ["Name"; "Age"] [["Ann"; "31"]].
Definition r1 : ExtractionResult := mkResult [table1] "one table".
Definition r2 : ExtractionResult := mkResult [table1'] "one table (edited)".

(** A serializer that [test_parse] inverts on the two results above. *)
Definition test_stringify (r : ExtractionResult) : string :=
  "{summary:" +:+ summary r +:+ "}".
Definition test_parse (s : string) : option ExtractionResult :=
  if bool_decide (s = test_stringify r1) then Some r1
  else if bool_decide (s = test_stringify r2) then Some r2
  else None.

Definition not_found : Exn :=
  ErrJs (mkJsError "Request failed with status code 404" None (Some (mkHttp 404 None))).

Definition env_with (bw br dr dw : bool) : Env :=
  mkEnv bw br dr dw (fun _ => inl not_found) "dastavej" "t3.storage.dev".

Definition env_ok : Env := env_with false false false false.

Definition empty_state : State := mkState ∅ ∅ ∅ [] [].

Definition file1 : UploadedFile := mkUploaded "my report.pdf" "%PDF-1.4" "application/pdf".

Definition timeout_error : JsError :=
  mkJsError "timeout of 600000ms exceeded" (Some "ECONNABORTED") None.

Definition env_blob_down : Env := env_with true false false false.
Definition env_db_write_down : Env := env_with false false false true.

Definition url1 : string := object_url env_ok (original_key "J1" "my report.pdf").

(** The entry a successful extraction of [file1] as job [J1] leaves. *)
Definition entry1 : CacheEntry := mkEntry CCompleted url1 (Some "my report.pdf") (Some r1) None.

Definition row1 : ExtractedFile :=
  mkFile "J1" "user-1" "my report.pdf" url1 "completed" None (Some r1).

(** After a restart: only the job map entry survives in [cached_only]; only
    the job record and the result blob in [recorded_only]; only the job
    record and a result under the legacy key in [legacy_only]. *)
Definition cached_only : State := mkState {[ "J1" := entry1 ]} ∅ ∅ [] [].
Definition recorded_only : State :=
  mkState ∅ {[ "J1" := row1 ]} {[ output_key "J1" "my report.pdf" := test_stringify r1 ]} [] [].
(** A job record whose file name needs no encoding, with no result blob. *)
Definition row_plain : ExtractedFile :=
  mkFile "J1" "user-1" "report.pdf" url1 "pending" None None.
Definition recorded_no_blob : State := mkState ∅ {[ "J1" := row_plain ]} ∅ [] [].
Definition legacy_only : State :=
  mkState ∅ {[ "J1" := row1 ]} {[ legacy_output_key "J1" "my report.pdf" := test_stringify r1 ]} [] [].

Definition run_success : (Exn + ExtractionResponse) * State :=
  startExtraction test_stringify (buffer file1) (originalname file1) (mimetype file1)
    "test-user" "en" true "J1" (EngineData (Some r1)) env_ok empty_state.
Definition run_timeout : (Exn + ExtractionResponse) * State :=
  startExtraction test_stringify (buffer file1) (originalname file1) (mimetype file1)
    "test-user" "en" true "J1" (EngineError timeout_error) env_ok empty_state.
Definition run_upload_failure : (Exn + ExtractionResponse) * State :=
  extractDocument test_stringify (Some file1) None None None "J1" (EngineData (Some r1))
    env_blob_down empty_state.
Definition run_record_failure : (Exn + ExtractionResponse) * State :=
  extractDocument test_stringify (Some file1) None None None "J1" (EngineData (Some r1))
    env_db_write_down empty_state.
Definition run_edit_cached_db_down : (Exn + UpdateResponse) * State :=
  updateExtractionResult test_stringify "J1" (Some r2) env_db_write_down cached_only.
Definition run_edit_recorded_db_down : (Exn + UpdateResponse) * State :=
  updateExtractionResult test_stringify "J1" (Some r2) env_db_write_down recorded_only.
Definition run_poll : (Exn + ExtractionStatusResponse) * State :=
  getExtractionStatus test_parse "J1" env_ok recorded_only.

(** A [new URL(...).pathname] for [https://host/path] URLs without query. *)
Definition test_pathname (url : string) : option string :=
  if startsWith url "https://" then
    let rest := substring_from 8 url in
    match String.index 0 "/" rest with
    | Some i => Some (substring_from i rest)
    | None => Some "/"
    end
  else None.

Definition test_sign (Bucket Key : string) (expiresIn : nat) : Exn + string :=
  inr ("https://" +:+ Bucket +:+ ".t3.storage.dev/" +:+ Key +:+ "?X-Amz-Expires=3600").

End Fixture.

(** ** Notions the statements below use *)

Definition is_failure {A} (r : Exn + A) : Prop := match r with inl _ => True | inr _ => False end.

(** What one probe of the bucket yields, as a function of the stores. *)
Definition key_outcome (JSON_parse : string -> option ExtractionResult) (env : Env)
    (b : gmap string string) (key : string) : option ExtractionResult :=
  if blob_read_fails env then None
  else match b !! key with Some body => JSON_parse body | None => None end.

Definition blob_entry (fileName : string) (d : ExtractionResult) : CacheEntry :=
  mkEntry CCompleted "" (Some fileName) (Some d) None.

Definition blob_response (jobId : string) (d : ExtractionResult) : ExtractionStatusResponse :=
  mkStatus jobId Completed (Some "") (Some d) None.

(** The exception [getExtractionStatus_rethrow] throws. *)
Definition status_exn (error : Exn) : Exn :=
  match exn_response error with
  | Some resp =>
      if hr_status resp =? 404 then BadRequestException "Job not found"
      else InternalServerErrorException "Failed to get extraction status"
  | None =>
      if str_eqb (default "" (exn_code error)) "ECONNREFUSED" then
        InternalServerErrorException "Python extraction service is not running."
      else InternalServerErrorException "Failed to get extraction status"
  end.

(** The answer of [getExtractionStatus] as a function of the job map entry,
    the job record table and the bucket. *)
Definition status_outcome (JSON_parse : string -> option ExtractionResult) (env : Env)
    (jobId : string) (cached : option CacheEntry) (jobs : gmap string ExtractedFile)
    (b : gmap string string) : Exn + ExtractionStatusResponse :=
  match cached with
  | Some c => inr (response_of_entry jobId c)
  | None =>
      let fileName := if db_read_fails env then None else ef_fileName <$> jobs !! jobId in
      let found :=
        match fileName with
        | Some fn =>
            if bool_decide (fn = "") then None
            else match key_outcome JSON_parse env b (output_key jobId fn) with
                 | Some d => Some d
                 | None => key_outcome JSON_parse env b (legacy_output_key jobId fn)
                 end
        | None => None
        end in
      match found with
      | Some d => inr (blob_response jobId d)
      | None =>
          match remote_status env jobId with
          | inr data => inr data
          | inl e => inl (status_exn e)
          end
      end
  end.

(** The part of [getExtractionStatus] after the job record lookup. *)
Definition status_after_lookup (JSON_parse : string -> option ExtractionResult)
    (jobId : string) (fileName : option string) : M ExtractionStatusResponse :=
  try_catch
    (let* found :=
       match fileName with
       | Some fn =>
           if bool_decide (fn = "") then ret None
           else probeKeys JSON_parse jobId fn (keysToTry jobId fn)
       | None => ret None
       end in
     match found with
     | Some resp => ret resp
     | None =>
         let* reply := asks (fun env => remote_status env jobId) in
         match reply with inl e => throw e | inr data => ret data end
     end)
    (fun error =>
     let* _ := log_error ("Failed to get extraction status: " +:+ exn_message error) in
     getExtractionStatus_rethrow error).

(** The blob calls of a run only ever append to the instrumentation list. *)
Definition calls_within (P : BlobCall -> Prop) (s s' : State) : Prop :=
  exists l, blob_calls s' = blob_calls s ++ l /\ Forall P l.

(** A [completed] entry carries data, a [failed] one an error and no data. *)
Definition entry_ok (c : CacheEntry) : Prop :=
  match ce_status c with
  | CCompleted => is_Some (ce_data c)
  | CFailed => ce_data c = None /\ is_Some (ce_error c)
  end.

Definition cache_ok (s : State) : Prop :=
  map_Forall (fun _ c => entry_ok c) (jobResultsMap s).

(** Characters [encodeURIComponent] may emit. *)
Definition encoded_char (c : ascii) : Prop :=
  is_unreserved c = true \/ c = "%"%char \/ exists n, n < 16 /\ c = hex_digit n.

(** The [url] that [getOriginalFileUrl] returns, from the job record. *)
Definition original_url_outcome (URL_pathname : string -> option string)
    (getSignedUrl : string -> string -> nat -> Exn + string) (env : Env)
    (row : option ExtractedFile) : option string :=
  if db_read_fails env then None
  else match row with
       | None => None
       | Some j =>
           if bool_decide (ef_fileUrl j = "") then None
           else match extractKeyFromUrl URL_pathname (bucketName env) (ef_fileUrl j) with
                | inl _ => None
                | inr key =>
                    match getSignedUrl (bucketName env) key 3600 with
                    | inr url => Some url
                    | inl _ => None
                    end
                end
       end.

(** The reply of [StorageController.getSignedUrl]. *)
Definition signed_url_outcome (URL_pathname : string -> option string)
    (getSignedUrl : string -> string -> nat -> Exn + string) (env : Env)
    (body_fileUrl : option string) : SignedUrlReply :=
  match body_fileUrl with
  | None => FileUrlRequired
  | Some fileUrl =>
      if bool_decide (fileUrl = "") then FileUrlRequired
      else match extractKeyFromUrl URL_pathname (bucketName env) fileUrl with
           | inl e => SignedUrlError (exn_message e)
           | inr key =>
               match getSignedUrl (bucketName env) key 3600 with
               | inr url => SignedUrl url
               | inl e => SignedUrlError ("Failed to generate signed URL: " +:+ exn_message e)
               end
           end
  end.

(** ** Unfolding the monad *)

Create HintDb monad_defs.
Global Hint Unfold ret bind throw try_catch modify gets asks log_warn log_error
  jobResultsMap_get jobResultsMap_set uploadFile fileExists getFileBuffer
  getExtractionJobById createExtractionJob updateExtractionJob : monad_defs.

(** ** Building blocks *)

Lemma startExtraction_rethrow_throws (error : Exn) (env : Env) (s : State) :
  exists e', startExtraction_rethrow error env s = (inl e', s) /\
    ((exists m, e' = BadRequestException m) \/ (exists m, e' = InternalServerErrorException m)).
Proof.
  unfold startExtraction_rethrow.
  destruct (exn_response error); [eauto 6|].
  repeat case_match; unfold throw; eauto 6.
Qed.

Lemma getExtractionStatus_cached (JSON_parse : string -> option ExtractionResult)
    (jobId : string) (env : Env) (s : State) (c : CacheEntry) :
  jobResultsMap s !! jobId = Some c ->
  getExtractionStatus JSON_parse jobId env s = (inr (response_of_entry jobId c), s).
Proof.
  intros Hc. unfold getExtractionStatus, try_catch, bind, jobResultsMap_get, gets, ret.
  cbn. rewrite Hc. reflexivity.
Qed.

(** The successful runs of [startExtraction]: both uploads went through,
    the engine answered a result, and the job map holds it. *)
Lemma startExtraction_success_inv (JSON_stringify : ExtractionResult -> string)
    (env : Env) (s s' : State)
    (fileBuffer fileName mimeType userId targetLanguage : string)
    (preserveNames : bool) (jobId : string) (reply : EngineReply)
    (res : ExtractionResponse) :
  startExtraction JSON_stringify fileBuffer fileName mimeType userId targetLanguage
    preserveNames jobId reply env s = (inr res, s') ->
  exists r, reply = EngineData (Some r) /\ blob_write_fails env = false /\
    res = mkResponse true "Extraction completed" (Some jobId)
            (Some (object_url env (original_key jobId fileName))) (Some r) /\
    s' = set_cache (<[jobId := (mkEntry CCompleted (object_url env (original_key jobId fileName))
                                 (Some fileName) (Some r) None)]> (jobResultsMap s))
           (set_bucket (<[output_key jobId fileName := JSON_stringify r]>
                         (<[original_key jobId fileName := fileBuffer]> (bucket s)))
             (add_call (CallUpload (output_key jobId fileName))
               (set_bucket (<[original_key jobId fileName := fileBuffer]> (bucket s))
                 (add_call (CallUpload (original_key jobId fileName)) s)))).
Proof.
  unfold startExtraction. intros H.
  destruct (blob_write_fails env) eqn:Hb;
    [| destruct reply as [[r|]|e]];
    repeat autounfold with monad_defs in H; cbn in H; rewrite ?Hb in H; cbn in H;
    try match type of H with
      | startExtraction_rethrow ?e ?env ?st = _ =>
          destruct (startExtraction_rethrow_throws e env st) as (e' & He' & _);
          rewrite He' in H; discriminate
      end;
    try discriminate H.
  inversion H; subst. eauto 10.
Qed.

(** ** C2: read-your-writes after a successful extraction *)

(** Claim C2: after a successful [startExtraction], [getExtractionStatus jobId]
    on the resulting state returns [completed] with exactly the result that
    [startExtraction] returned (and leaves the state unchanged). *)
Lemma getStatus_after_startExtraction
    (JSON_stringify : ExtractionResult -> string)
    (JSON_parse : string -> option ExtractionResult) (env : Env) (s s' : State)
    (fileBuffer fileName mimeType userId targetLanguage : string)
    (preserveNames : bool) (jobId : string) (reply : EngineReply)
    (res : ExtractionResponse) :
  startExtraction JSON_stringify fileBuffer fileName mimeType userId targetLanguage
    preserveNames jobId reply env s = (inr res, s') ->
  exists r, er_data res = Some r /\
    getExtractionStatus JSON_parse jobId env s' =
      (inr (mkStatus jobId Completed (er_file_url res) (Some r) None), s').
Proof.
  intros H.
  destruct (startExtraction_success_inv _ _ _ _ _ _ _ _ _ _ _ _ _ H)
    as (r & -> & Hb & -> & ->).
  exists r. split; [reflexivity|].
  rewrite (getExtractionStatus_cached _ _ _ _
             (mkEntry CCompleted (object_url env (original_key jobId fileName))
                (Some fileName) (Some r) None)).
  - reflexivity.
  - cbn. apply lookup_insert_eq.
Qed.

Lemma original_key_ne_output_key (jobId fileName fileName' : string) :
  original_key jobId fileName <> output_key jobId fileName'.
Proof. unfold original_key, output_key. intros H. simpl in H. injection H. intros. congruence. Qed.

(** ** C1: failure of the original upload *)

(** Claim C1 (as amended): when the upload of the original fails,
    [extractDocument] aborts with [InternalServerErrorException], writes
    nothing else to the bucket and no job record; but the catch-all of
    [startExtraction] stores a [failed] entry for the generated job id, which
    [getExtractionStatus] then reports. *)
Lemma extractDocument_upload_failure
    (JSON_stringify : ExtractionResult -> string)
    (JSON_parse : string -> option ExtractionResult) (env : Env) (s s' : State)
    (f : UploadedFile) (sessionUser target_language : option string)
    (preserve_names : option bool) (jobId : string) (reply : EngineReply)
    (r : Exn + ExtractionResponse) :
  blob_write_fails env = true ->
  extractDocument JSON_stringify (Some f) sessionUser target_language preserve_names
    jobId reply env s = (r, s') ->
  r = inl (InternalServerErrorException "Document extraction failed") /\
  extraction_jobs s' = extraction_jobs s /\
  bucket s' = bucket s /\
  blob_calls s' = blob_calls s ++ [CallUpload (original_key jobId (originalname f))] /\
  jobResultsMap s' =
    <[jobId := mkEntry CFailed "" (Some (originalname f)) None
                 (Some "Failed to upload file: S3 unavailable")]> (jobResultsMap s) /\
  getExtractionStatus JSON_parse jobId env s' =
    (inr (mkStatus jobId Failed (Some "") None
            (Some "Failed to upload file: S3 unavailable")), s').
Proof.
  intros Hb H.
  unfold extractDocument, startExtraction in H.
  repeat autounfold with monad_defs in H. cbn in H. rewrite Hb in H. cbn in H.
  inversion H; subst; clear H. cbn.
  split_and!; try reflexivity.
  erewrite getExtractionStatus_cached by (cbn; apply lookup_insert_eq). reflexivity.
Qed.

(** ** C4: failure of the engine call *)

(** Claim C4: when the original was stored and the engine call then fails,
    [startExtraction] throws a typed HTTP exception, stores
    [{status: failed, error: error.message}] under the job id, writes no
    result blob (the only upload is the original) and no job record, and
    [getExtractionStatus] reports [failed] with that non-empty message. *)
Lemma startExtraction_engine_failure
    (JSON_stringify : ExtractionResult -> string)
    (JSON_parse : string -> option ExtractionResult) (env : Env) (s s' : State)
    (fileBuffer fileName mimeType userId targetLanguage : string)
    (preserveNames : bool) (jobId : string) (e : JsError) (r : Exn + ExtractionResponse) :
  blob_write_fails env = false ->
  err_message e <> "" ->
  startExtraction JSON_stringify fileBuffer fileName mimeType userId targetLanguage
    preserveNames jobId (EngineError e) env s = (r, s') ->
  (exists err, r = inl err /\
     ((exists m, err = BadRequestException m) \/
      (exists m, err = InternalServerErrorException m))) /\
  jobResultsMap s' !! jobId = Some (mkEntry CFailed "" (Some fileName) None (Some (err_message e))) /\
  blob_calls s' = blob_calls s ++ [CallUpload (original_key jobId fileName)] /\
  bucket s' = <[original_key jobId fileName := fileBuffer]> (bucket s) /\
  bucket s' !! output_key jobId fileName = bucket s !! output_key jobId fileName /\
  extraction_jobs s' = extraction_jobs s /\
  exists msg, msg <> "" /\
    getExtractionStatus JSON_parse jobId env s' =
      (inr (mkStatus jobId Failed (Some "") None (Some msg)), s').
Proof.
  intros Hb Hmsg H.
  unfold startExtraction in H.
  repeat autounfold with monad_defs in H. cbn in H. rewrite Hb in H. cbn in H.
  match type of H with
  | startExtraction_rethrow ?err ?env' ?st = _ =>
      destruct (startExtraction_rethrow_throws err env' st) as (e' & He' & Hty);
      rewrite He' in H; inversion H; subst; clear H
  end.
  cbn. split_and!.
  - eauto.
  - apply lookup_insert_eq.
  - reflexivity.
  - reflexivity.
  - apply lookup_insert_ne. apply original_key_ne_output_key.
  - reflexivity.
  - exists (err_message e). split; [exact Hmsg|].
    erewrite getExtractionStatus_cached by (cbn; apply lookup_insert_eq). reflexivity.
Qed.

(** ** C5: strictness of the manual edit *)

(** What the [catch] of [updateExtractionResult] guarantees: every failure
    is a [BadRequestException], a failed edit leaves the in-memory job map
    untouched, a failing blob or record write makes the edit fail, and with
    neither a record nor a cache entry it fails with "Job not found". *)
Lemma updateExtractionResult_failure_core
    (JSON_stringify : ExtractionResult -> string)
    (JSON_parse : string -> option ExtractionResult) (env : Env) (s s' : State)
    (jobId : string) (body_data : option ExtractionResult) (r : Exn + UpdateResponse) :
  updateExtractionResult JSON_stringify jobId body_data env s = (r, s') ->
  ((exists m, r = inl (BadRequestException m)) \/
   r = inr (mkUpdate true "Extraction result updated successfully")) /\
  (is_failure r -> jobResultsMap s' = jobResultsMap s) /\
  (blob_write_fails env = true \/ db_write_fails env = true -> is_failure r) /\
  (forall c, is_failure r -> jobResultsMap s !! jobId = Some c ->
     getExtractionStatus JSON_parse jobId env s' = (inr (response_of_entry jobId c), s')) /\
  (body_data <> None -> db_read_fails env = false ->
   extraction_jobs s !! jobId = None -> jobResultsMap s !! jobId = None ->
   r = inl (BadRequestException "Failed to update extraction result: Job not found")).
Proof.
  intros H.
  unfold updateExtractionResult, getJobFromCache, updateJobResult in H.
  repeat autounfold with monad_defs in H; cbn in H.
  repeat (first [ case_match | discriminate | progress simplify_eq/= ]);
  split_and!;
  first
    [ left; solve [eauto]
    | right; reflexivity
    | cbn; tauto
    | intros [Hb'|Hd']; cbn; congruence
    | intros c' Hf Hc'; cbn in Hf; try contradiction;
      erewrite getExtractionStatus_cached by (cbn; exact Hc'); reflexivity
    | intros Hn Hd Hj Hc'; first [ reflexivity | congruence ]
    ].
Qed.

(** ** C7: the job record write after a successful extraction is best-effort *)

(** Claim C7: [extractDocument] answers exactly what [startExtraction]
    answered, whatever becomes of the job record write; when that write
    fails, its failure only adds a warning to the log and the table is
    left as it was. *)
Lemma extractDocument_best_effort
    (JSON_stringify : ExtractionResult -> string) (env : Env) (s : State)
    (f : UploadedFile) (sessionUser target_language : option string)
    (preserve_names : option bool) (jobId : string) (reply : EngineReply) :
  fst (extractDocument JSON_stringify (Some f) sessionUser target_language
         preserve_names jobId reply env s) =
  fst (startExtraction JSON_stringify (buffer f) (originalname f) (mimetype f)
         (or_else (default "" sessionUser) "test-user")
         (or_else (default "" target_language) "en")
         (negb (bool_decide (preserve_names = Some false))) jobId reply env s) /\
  (jobId <> "" -> db_write_fails env = true ->
   forall res s',
   extractDocument JSON_stringify (Some f) sessionUser target_language
     preserve_names jobId reply env s = (inr res, s') ->
   last (logs s') =
     Some (LogWarn "Failed to create job record in database: database unavailable") /\
   extraction_jobs s' = extraction_jobs s).
Proof.
  unfold extractDocument. cbn zeta.
  set (st := startExtraction JSON_stringify (buffer f) (originalname f) (mimetype f)
         (or_else (default "" sessionUser) "test-user")
         (or_else (default "" target_language) "en")
         (negb (bool_decide (preserve_names = Some false))) jobId reply).
  destruct (st env s) as [[e|res] s1] eqn:Hst.
  - unfold bind. rewrite Hst. split; [reflexivity|].
    intros _ _ res s' H. discriminate H.
  - pose proof Hst as Hst'. unfold st in Hst'.
    apply startExtraction_success_inv in Hst' as (r & Hreply & Hb & Hres & Hs1).
    subst res. cbn.
    unfold bind at 1. rewrite Hst. cbn.
    split.
    + case_decide; [reflexivity|].
      repeat autounfold with monad_defs; cbn.
      repeat case_match; first [reflexivity | congruence].
    + intros Hj Hdw res' s' H.
      unfold bind at 1 in H. rewrite Hst in H. cbn in H.
      rewrite bool_decide_false in H by exact Hj.
      repeat autounfold with monad_defs in H. cbn in H. rewrite Hdw in H. cbn in H.
      inversion H; subst; clear H. cbn.
      split; [apply last_snoc | reflexivity].
Qed.

(** ** C3: reconstruction of a job's state on a cache miss *)

Section Probe.

Variable JSON_parse : string -> option ExtractionResult.
Variables (env : Env) (jobId fileName key : string).
Hypothesis blob_up : blob_read_fails env = false.

Lemma tryOutputKey_absent (s : State) :
  bucket s !! key = None ->
  tryOutputKey JSON_parse jobId fileName key env s = (inr None, add_call (CallExists key) s).
Proof.
  intros Hk. unfold tryOutputKey.
  repeat autounfold with monad_defs. cbn. rewrite blob_up. cbn. rewrite Hk. reflexivity.
Qed.

Lemma tryOutputKey_hit (s : State) (body : string) (d : ExtractionResult) :
  bucket s !! key = Some body -> JSON_parse body = Some d ->
  tryOutputKey JSON_parse jobId fileName key env s =
    (inr (Some (mkStatus jobId Completed (Some "") (Some d) None)),
     set_cache (<[jobId := mkEntry CCompleted "" (Some fileName) (Some d) None]>
                  (jobResultsMap s))
       (add_call (CallGet key) (add_call (CallExists key) s))).
Proof.
  intros Hk Hp. unfold tryOutputKey.
  repeat autounfold with monad_defs. cbn. rewrite blob_up. cbn. rewrite Hk. cbn.
  rewrite blob_up. cbn. rewrite Hk. cbn. rewrite Hp. reflexivity.
Qed.

End Probe.

(** On a cache miss with the job record readable, [getExtractionStatus]
    continues with the record's file name. *)
Lemma getExtractionStatus_miss (JSON_parse : string -> option ExtractionResult)
    (env : Env) (s : State) (jobId : string) :
  jobResultsMap s !! jobId = None -> db_read_fails env = false ->
  getExtractionStatus JSON_parse jobId env s =
  try_catch
    (let* found :=
       match ef_fileName <$> extraction_jobs s !! jobId with
       | Some fn =>
           if bool_decide (fn = "") then ret None
           else probeKeys JSON_parse jobId fn (keysToTry jobId fn)
       | None => ret None
       end in
     match found with
     | Some resp => ret resp
     | None =>
         let* reply := asks (fun env => remote_status env jobId) in
         match reply with inl e => throw e | inr data => ret data end
     end)
    (fun error =>
     let* _ := log_error ("Failed to get extraction status: " +:+ exn_message error) in
     getExtractionStatus_rethrow error) env s.
Proof.
  intros Hc Hdb. unfold getExtractionStatus, getExtractionJobById, jobResultsMap_get.
  unfold try_catch at 1 3, bind at 1 2, gets, asks. cbn - [probeKeys].
  rewrite Hc. unfold try_catch, bind, throw, ret. cbn - [probeKeys].
  rewrite Hdb. reflexivity.
Qed.

(** Claim C3: on a cache miss [getExtractionStatus] consults the job record
    for the file name, then probes the bucket under the URL-encoded result
    key and then under the legacy unencoded key (first hit wins, the hit is
    parsed, stored in the job map and returned as [completed]), and only then
    asks the engine's status endpoint; without a job record the bucket is
    not touched and the engine's answer is returned. *)
Lemma getExtractionStatus_reconcile (JSON_parse : string -> option ExtractionResult)
    (env : Env) (s : State) (jobId : string) :
  jobResultsMap s !! jobId = None ->
  db_read_fails env = false ->
  blob_read_fails env = false ->
  (extraction_jobs s !! jobId = None ->
     blob_calls (snd (getExtractionStatus JSON_parse jobId env s)) = blob_calls s /\
     forall resp, remote_status env jobId = inr resp ->
       getExtractionStatus JSON_parse jobId env s = (inr resp, s)) /\
  (forall row body d,
     extraction_jobs s !! jobId = Some row -> ef_fileName row <> "" ->
     bucket s !! output_key jobId (ef_fileName row) = Some body ->
     JSON_parse body = Some d ->
     getExtractionStatus JSON_parse jobId env s =
       (inr (mkStatus jobId Completed (Some "") (Some d) None),
        set_cache (<[jobId := mkEntry CCompleted "" (Some (ef_fileName row)) (Some d) None]>
                     (jobResultsMap s))
          (add_call (CallGet (output_key jobId (ef_fileName row)))
             (add_call (CallExists (output_key jobId (ef_fileName row))) s)))) /\
  (forall row body d,
     extraction_jobs s !! jobId = Some row -> ef_fileName row <> "" ->
     bucket s !! output_key jobId (ef_fileName row) = None ->
     bucket s !! legacy_output_key jobId (ef_fileName row) = Some body ->
     JSON_parse body = Some d ->
     getExtractionStatus JSON_parse jobId env s =
       (inr (mkStatus jobId Completed (Some "") (Some d) None),
        set_cache (<[jobId := mkEntry CCompleted "" (Some (ef_fileName row)) (Some d) None]>
                     (jobResultsMap s))
          (add_call (CallGet (legacy_output_key jobId (ef_fileName row)))
             (add_call (CallExists (legacy_output_key jobId (ef_fileName row)))
                (add_call (CallExists (output_key jobId (ef_fileName row))) s))))) /\
  (forall row resp,
     extraction_jobs s !! jobId = Some row -> ef_fileName row <> "" ->
     bucket s !! output_key jobId (ef_fileName row) = None ->
     bucket s !! legacy_output_key jobId (ef_fileName row) = None ->
     remote_status env jobId = inr resp ->
     getExtractionStatus JSON_parse jobId env s =
       (inr resp,
        add_call (CallExists (legacy_output_key jobId (ef_fileName row)))
          (add_call (CallExists (output_key jobId (ef_fileName row))) s))).
Proof.
  intros Hc Hdb Hbr.
  rewrite (getExtractionStatus_miss _ _ _ _ Hc Hdb).
  split_and!.
  - intros Hrow. rewrite Hrow.
    repeat autounfold with monad_defs; cbn.
    split.
    + destruct (remote_status env jobId) eqn:Hr; cbn; [|reflexivity].
      unfold getExtractionStatus_rethrow. repeat case_match; reflexivity.
    + intros resp Hr. rewrite Hr. reflexivity.
  - intros row body d Hrow Hfn Hk Hp. rewrite Hrow. cbn [fmap option_fmap option_map].
    rewrite bool_decide_false by exact Hfn.
    unfold keysToTry. cbn [probeKeys].
    repeat autounfold with monad_defs; cbn - [tryOutputKey].
    erewrite (tryOutputKey_hit _ _ _ _ _ Hbr) by (first [exact Hk | exact Hp]). reflexivity.
  - intros row body d Hrow Hfn Hk Hk' Hp. rewrite Hrow. cbn [fmap option_fmap option_map].
    rewrite bool_decide_false by exact Hfn.
    unfold keysToTry. cbn [probeKeys].
    repeat autounfold with monad_defs; cbn - [tryOutputKey].
    erewrite (tryOutputKey_absent _ _ _ _ _ Hbr) by exact Hk. cbn - [tryOutputKey].
    erewrite (tryOutputKey_hit _ _ _ _ _ Hbr) by (first [exact Hk' | exact Hp]). reflexivity.
  - intros row resp Hrow Hfn Hk Hk' Hr. rewrite Hrow. cbn [fmap option_fmap option_map].
    rewrite bool_decide_false by exact Hfn.
    unfold keysToTry. cbn [probeKeys].
    repeat autounfold with monad_defs; cbn - [tryOutputKey].
    erewrite (tryOutputKey_absent _ _ _ _ _ Hbr) by exact Hk. cbn - [tryOutputKey].
    erewrite (tryOutputKey_absent _ _ _ _ _ Hbr) by exact Hk'. cbn.
    rewrite Hr. reflexivity.
Qed.

(** ** C8: idempotence of status polls *)

Lemma getExtractionStatus_rethrow_eq (error : Exn) (env : Env) (s : State) :
  getExtractionStatus_rethrow error env s = (inl (status_exn error), s).
Proof. unfold getExtractionStatus_rethrow, status_exn. repeat case_match; reflexivity. Qed.

Lemma tryOutputKey_outcome (JSON_parse : string -> option ExtractionResult) (env : Env)
    (s : State) (jobId fileName key : string) :
  exists s',
    tryOutputKey JSON_parse jobId fileName key env s =
      (inr (blob_response jobId <$> key_outcome JSON_parse env (bucket s) key), s') /\
    extraction_jobs s' = extraction_jobs s /\ bucket s' = bucket s /\
    jobResultsMap s' =
      match key_outcome JSON_parse env (bucket s) key with
      | Some d => <[jobId := blob_entry fileName d]> (jobResultsMap s)
      | None => jobResultsMap s
      end.
Proof.
  unfold tryOutputKey, key_outcome.
  repeat autounfold with monad_defs. cbn.
  destruct (blob_read_fails env) eqn:Hr; cbn; [eexists; eauto|].
  destruct (bucket s !! key) as [body|] eqn:Hk; cbn; [|eexists; eauto].
  rewrite Hr. cbn. rewrite Hk.
  destruct (JSON_parse body); cbn; eexists; eauto.
Qed.

Lemma probeKeys_outcome (JSON_parse : string -> option ExtractionResult) (env : Env)
    (s : State) (jobId fileName : string) :
  let found := match key_outcome JSON_parse env (bucket s) (output_key jobId fileName) with
               | Some d => Some d
               | None => key_outcome JSON_parse env (bucket s) (legacy_output_key jobId fileName)
               end in
  exists s',
    probeKeys JSON_parse jobId fileName (keysToTry jobId fileName) env s =
      (inr (blob_response jobId <$> found), s') /\
    extraction_jobs s' = extraction_jobs s /\ bucket s' = bucket s /\
    jobResultsMap s' =
      match found with
      | Some d => <[jobId := blob_entry fileName d]> (jobResultsMap s)
      | None => jobResultsMap s
      end.
Proof.
  cbn zeta. unfold keysToTry. cbn [probeKeys]. unfold bind at 1.
  destruct (tryOutputKey_outcome JSON_parse env s jobId fileName (output_key jobId fileName))
    as (s1 & -> & Hj1 & Hb1 & Hc1).
  destruct (key_outcome JSON_parse env (bucket s) (output_key jobId fileName)) as [d|];
    cbn; [eexists; eauto|].
  unfold bind at 1.
  destruct (tryOutputKey_outcome JSON_parse env s1 jobId fileName
              (legacy_output_key jobId fileName)) as (s2 & -> & Hj2 & Hb2 & Hc2).
  rewrite Hb1 in Hc2 |- *.
  destruct (key_outcome JSON_parse env (bucket s) (legacy_output_key jobId fileName));
    cbn; eexists; split_and!; eauto; congruence.
Qed.

Lemma getExtractionStatus_miss_any (JSON_parse : string -> option ExtractionResult)
    (env : Env) (s : State) (jobId : string) :
  jobResultsMap s !! jobId = None ->
  exists s0,
    getExtractionStatus JSON_parse jobId env s =
      status_after_lookup JSON_parse jobId
        (if db_read_fails env then None else ef_fileName <$> extraction_jobs s !! jobId) env s0 /\
    jobResultsMap s0 = jobResultsMap s /\ extraction_jobs s0 = extraction_jobs s /\
    bucket s0 = bucket s /\ blob_calls s0 = blob_calls s.
Proof.
  intros Hc. destruct (db_read_fails env) eqn:Hdb.
  - exists (add_log (LogWarn ("Failed to get job from DB: " +:+ "database unavailable")) s).
    split; [|split_and!; reflexivity].
    unfold getExtractionStatus, status_after_lookup.
    repeat autounfold with monad_defs. cbn - [probeKeys].
    rewrite Hc. cbn - [probeKeys]. rewrite Hdb. cbn - [probeKeys]. reflexivity.
  - exists s. split; [|split_and!; reflexivity].
    rewrite (getExtractionStatus_miss _ _ _ _ Hc Hdb). reflexivity.
Qed.

Lemma getExtractionStatus_outcome (JSON_parse : string -> option ExtractionResult)
    (env : Env) (s : State) (jobId : string) :
  exists s1,
    getExtractionStatus JSON_parse jobId env s =
      (status_outcome JSON_parse env jobId (jobResultsMap s !! jobId)
         (extraction_jobs s) (bucket s), s1) /\
    extraction_jobs s1 = extraction_jobs s /\ bucket s1 = bucket s /\
    (jobResultsMap s1 = jobResultsMap s \/
     exists fn d, jobResultsMap s1 = <[jobId := blob_entry fn d]> (jobResultsMap s) /\
       status_outcome JSON_parse env jobId (jobResultsMap s !! jobId)
         (extraction_jobs s) (bucket s) = inr (blob_response jobId d)).
Proof.
  destruct (jobResultsMap s !! jobId) as [c|] eqn:Hc.
  - rewrite (getExtractionStatus_cached _ _ _ _ c Hc). eexists; split_and!; eauto.
  - destruct (getExtractionStatus_miss_any JSON_parse env s jobId Hc)
      as (s0 & -> & Hc0 & Hj0 & Hb0 & _).
    unfold status_outcome, status_after_lookup.
    set (fileName := if db_read_fails env then None else ef_fileName <$> extraction_jobs s !! jobId).
    clearbody fileName. rewrite <- Hb0.
    destruct fileName as [fn|];
      [destruct (bool_decide (fn = "")) eqn:Hfn|].
    2: {
      pose proof (probeKeys_outcome JSON_parse env s0 jobId fn) as Hpk. cbv zeta in Hpk.
      destruct Hpk as (s' & Hp & Hj & Hb & Hm).
      unfold try_catch at 1, bind at 1. rewrite Hp. cbn - [probeKeys].
      destruct (match key_outcome JSON_parse env (bucket s0) (output_key jobId fn) with
                | Some d => Some d
                | None => key_outcome JSON_parse env (bucket s0) (legacy_output_key jobId fn)
                end) as [d|]; cbn - [probeKeys].
      - exists s'. split_and!; try congruence. right. exists fn, d. split; [|reflexivity].
        rewrite Hm, Hc0. reflexivity.
      - repeat autounfold with monad_defs; cbn.
        destruct (remote_status env jobId); cbn; [rewrite getExtractionStatus_rethrow_eq|];
          eexists; split_and!; try reflexivity; cbn; try congruence.
        all: left; cbn; congruence. }
    all: repeat autounfold with monad_defs; cbn.
    all: destruct (remote_status env jobId); cbn; [rewrite getExtractionStatus_rethrow_eq|];
          eexists; split_and!; try reflexivity; cbn; try congruence.
    all: left; cbn; congruence.
Qed.

(** Claim C8: two successive [getExtractionStatus] polls give the same
    answer, and once the job map holds an entry for the job (stored by
    [startExtraction], by [updateExtractionResult] or by the bucket fallback
    of the first poll) the second poll is served from it and touches
    neither the bucket nor any other store. Both answers are compared as
    values of [ExtractionStatusResponse], whose optional fields model the
    JSON body sent to the client. *)
Lemma getExtractionStatus_idempotent (JSON_parse : string -> option ExtractionResult)
    (env : Env) (s s1 : State) (jobId : string) (r : Exn + ExtractionStatusResponse) :
  getExtractionStatus JSON_parse jobId env s = (r, s1) ->
  fst (getExtractionStatus JSON_parse jobId env s1) = r /\
  (is_Some (jobResultsMap s1 !! jobId) ->
   getExtractionStatus JSON_parse jobId env s1 = (r, s1) /\
   blob_calls (snd (getExtractionStatus JSON_parse jobId env s1)) = blob_calls s1).
Proof.
  intros H.
  destruct (getExtractionStatus_outcome JSON_parse env s jobId) as (s1' & Heq & Hj & Hb & Hcase).
  rewrite Heq in H. injection H as <- <-.
  assert (Hfst : fst (getExtractionStatus JSON_parse jobId env s1') =
                 status_outcome JSON_parse env jobId (jobResultsMap s !! jobId)
                   (extraction_jobs s) (bucket s)).
  { destruct (getExtractionStatus_outcome JSON_parse env s1' jobId) as (s2 & Heq2 & _).
    rewrite Heq2. cbn [fst]. rewrite Hj, Hb.
    destruct Hcase as [Hm | (fn & d & Hm & Hr)].
    - rewrite Hm. reflexivity.
    - rewrite Hm, lookup_insert_eq, Hr. reflexivity. }
  split; [exact Hfst|].
  intros [c Hc]. rewrite (getExtractionStatus_cached _ _ _ _ c Hc) in Hfst |- *.
  cbn [fst] in Hfst. rewrite Hfst. split; reflexivity.
Qed.

(** ** C5: no rollback of a half-applied edit *)

(** When the record update fails after the blob write, the edit fails but
    its blob stays. *)
Lemma updateExtractionResult_record_write_down
    (JSON_stringify : ExtractionResult -> string) (env : Env) (s s' : State)
    (jobId : string) (d : ExtractionResult) (j : ExtractedFile) (r : Exn + UpdateResponse) :
  db_read_fails env = false -> blob_write_fails env = false -> db_write_fails env = true ->
  extraction_jobs s !! jobId = Some j ->
  updateExtractionResult JSON_stringify jobId (Some d) env s = (r, s') ->
  r = inl (BadRequestException "Failed to update extraction result: database unavailable") /\
  jobResultsMap s' = jobResultsMap s /\ extraction_jobs s' = extraction_jobs s /\
  bucket s' = <[output_key jobId (ef_fileName j) := JSON_stringify d]> (bucket s).
Proof.
  intros Hdr Hbw Hdw Hj H.
  unfold updateExtractionResult, getExtractionJobById, uploadFile, updateExtractionJob in H.
  repeat autounfold with monad_defs in H. cbn in H.
  rewrite Hdr in H. cbn in H. rewrite Hj in H. cbn in H. rewrite Hbw in H. cbn in H.
  rewrite Hdw in H. cbn in H.
  injection H as <- <-. split_and!; reflexivity.
Qed.

(** On a cache miss, a readable job record with a file name and a parsable
    blob under the encoded result key, [getExtractionStatus] serves the blob. *)
Lemma getExtractionStatus_blob_served (JSON_parse : string -> option ExtractionResult)
    (env : Env) (s : State) (jobId : string) (j : ExtractedFile) (body : string)
    (d : ExtractionResult) :
  jobResultsMap s !! jobId = None -> db_read_fails env = false -> blob_read_fails env = false ->
  extraction_jobs s !! jobId = Some j -> ef_fileName j <> "" ->
  bucket s !! output_key jobId (ef_fileName j) = Some body -> JSON_parse body = Some d ->
  fst (getExtractionStatus JSON_parse jobId env s) = inr (blob_response jobId d).
Proof.
  intros Hc Hdr Hbr Hj Hfn Hk Hp.
  destruct (getExtractionStatus_outcome JSON_parse env s jobId) as (s1 & -> & _).
  cbn [fst]. unfold status_outcome. rewrite Hc, Hdr, Hj. cbn [fmap option_fmap option_map].
  rewrite bool_decide_false by exact Hfn.
  unfold key_outcome. rewrite Hbr, Hk, Hp. reflexivity.
Qed.

(** Claim C5 (as amended): every failure of [updateExtractionResult] is
    reported as a [BadRequestException], a failed edit leaves the in-memory
    job map untouched (so a cached pre-edit entry is still what
    [getExtractionStatus] serves), a failing blob or record write makes the
    edit fail, and with neither a record nor a cache entry it fails with
    "Job not found". There is no rollback: when the record update fails
    after the blob write succeeded, the edit fails, the new blob stays in
    the bucket under the record's result key, and with no job map entry the
    next [getExtractionStatus] serves the edited result from that blob. *)
Lemma updateExtractionResult_strict
    (JSON_stringify : ExtractionResult -> string)
    (JSON_parse : string -> option ExtractionResult) (env : Env) (s s' : State)
    (jobId : string) (body_data : option ExtractionResult) (r : Exn + UpdateResponse) :
  updateExtractionResult JSON_stringify jobId body_data env s = (r, s') ->
  ((exists m, r = inl (BadRequestException m)) \/
   r = inr (mkUpdate true "Extraction result updated successfully")) /\
  (is_failure r -> jobResultsMap s' = jobResultsMap s) /\
  (blob_write_fails env = true \/ db_write_fails env = true -> is_failure r) /\
  (forall c, is_failure r -> jobResultsMap s !! jobId = Some c ->
     getExtractionStatus JSON_parse jobId env s' = (inr (response_of_entry jobId c), s')) /\
  (body_data <> None -> db_read_fails env = false ->
   extraction_jobs s !! jobId = None -> jobResultsMap s !! jobId = None ->
   r = inl (BadRequestException "Failed to update extraction result: Job not found")) /\
  (forall d j, body_data = Some d -> db_read_fails env = false ->
     blob_write_fails env = false -> db_write_fails env = true ->
     extraction_jobs s !! jobId = Some j ->
     is_failure r /\
     bucket s' = <[output_key jobId (ef_fileName j) := JSON_stringify d]> (bucket s) /\
     (jobResultsMap s !! jobId = None -> blob_read_fails env = false ->
      ef_fileName j <> "" -> JSON_parse (JSON_stringify d) = Some d ->
      fst (getExtractionStatus JSON_parse jobId env s') =
        inr (mkStatus jobId Completed (Some "") (Some d) None))).
Proof.
  intros H.
  destruct (updateExtractionResult_failure_core JSON_stringify JSON_parse env s s' jobId
              body_data r H) as (H1 & H2 & H3 & H4 & H5).
  split_and!; try assumption.
  intros d j -> Hdr Hbw Hdw Hj.
  destruct (updateExtractionResult_record_write_down JSON_stringify env s s' jobId d j r
              Hdr Hbw Hdw Hj H) as (-> & Hc & Hjs & Hb).
  split_and!; [exact I | exact Hb |].
  intros Hc0 Hbr Hfn Hp.
  apply (getExtractionStatus_blob_served JSON_parse env s' jobId j (JSON_stringify d) d);
    try congruence.
  rewrite Hb. apply lookup_insert_eq.
Qed.

(** ** C9: the bucket key layout *)

Lemma calls_within_refl (P : BlobCall -> Prop) (s : State) : calls_within P s s.
Proof. exists []. rewrite app_nil_r. auto. Qed.

Lemma calls_within_trans (P : BlobCall -> Prop) (s1 s2 s3 : State) :
  calls_within P s1 s2 -> calls_within P s2 s3 -> calls_within P s1 s3.
Proof.
  intros (l1 & H1 & F1) (l2 & H2 & F2). exists (l1 ++ l2).
  rewrite H2, H1, app_assoc. split; [reflexivity|]. apply Forall_app; auto.
Qed.

Lemma calls_within_mono (P Q : BlobCall -> Prop) (s s' : State) :
  (forall c, P c -> Q c) -> calls_within P s s' -> calls_within Q s s'.
Proof. intros HPQ (l & H & F). exists l. split; [exact H|]. eapply Forall_impl; eauto. Qed.

Lemma calls_within_call (P : BlobCall -> Prop) (s s' : State) (c : BlobCall) :
  P c -> calls_within P s s' -> calls_within P s (add_call c s').
Proof.
  intros Hc (l & H & F). exists (l ++ [c]). cbn. rewrite H, app_assoc.
  split; [reflexivity|]. apply Forall_app; auto.
Qed.

Lemma calls_within_same (P : BlobCall -> Prop) (s s' : State) :
  blob_calls s' = blob_calls s -> calls_within P s s'.
Proof. intros H. exists []. rewrite app_nil_r. auto. Qed.

Lemma tryOutputKey_calls (JSON_parse : string -> option ExtractionResult) (env : Env)
    (s s' : State) (jobId fileName key : string) x :
  tryOutputKey JSON_parse jobId fileName key env s = (x, s') ->
  calls_within (fun c => c = CallExists key \/ c = CallGet key) s s' /\
  extraction_jobs s' = extraction_jobs s.
Proof.
  unfold tryOutputKey. repeat autounfold with monad_defs. cbn.
  intros H. repeat (first [ case_match | discriminate | progress simplify_eq/= ]);
  split; try reflexivity;
  repeat (apply calls_within_call; [now auto|]); apply calls_within_refl.
Qed.

Lemma probeKeys_calls (JSON_parse : string -> option ExtractionResult) (env : Env)
    (jobId fileName : string) (ks : list string) :
  forall (s s' : State) x,
  probeKeys JSON_parse jobId fileName ks env s = (x, s') ->
  calls_within (fun c => exists k, k ∈ ks /\ (c = CallExists k \/ c = CallGet k)) s s' /\
  extraction_jobs s' = extraction_jobs s.
Proof.
  induction ks as [|k ks IH]; intros s s' x H.
  - cbn in H. unfold ret in H. simplify_eq. split; [apply calls_within_refl | reflexivity].
  - cbn in H. unfold bind at 1 in H.
    destruct (tryOutputKey JSON_parse jobId fileName k env s) as [[e|[r|]] s1] eqn:Ht;
      apply tryOutputKey_calls in Ht as [Hc1 Hj1].
    + simplify_eq. split; [|exact Hj1].
      eapply calls_within_mono; [|exact Hc1]. intros c Hc. exists k. split; [left|exact Hc].
    + unfold ret in H. simplify_eq. split; [|exact Hj1].
      eapply calls_within_mono; [|exact Hc1]. intros c Hc. exists k. split; [left|exact Hc].
    + apply IH in H as [Hc2 Hj2]. split; [|congruence].
      eapply calls_within_trans.
      * eapply calls_within_mono; [|exact Hc1]. intros c Hc. exists k. split; [left|exact Hc].
      * eapply calls_within_mono; [|exact Hc2].
        intros c (k' & Hk' & Hc). exists k'. split; [right; exact Hk'|exact Hc].
Qed.

Lemma getExtractionStatus_calls (JSON_parse : string -> option ExtractionResult) (env : Env)
    (s s' : State) (jobId : string) r :
  getExtractionStatus JSON_parse jobId env s = (r, s') ->
  calls_within (fun c => exists j k, extraction_jobs s !! jobId = Some j /\
                  k ∈ keysToTry jobId (ef_fileName j) /\ (c = CallExists k \/ c = CallGet k))
    s s'.
Proof.
  intros H. destruct (jobResultsMap s !! jobId) as [c|] eqn:Hc.
  { rewrite (getExtractionStatus_cached _ _ _ _ c Hc) in H. simplify_eq.
    apply calls_within_refl. }
  destruct (getExtractionStatus_miss_any JSON_parse env s jobId Hc)
    as (s0 & Heq & _ & Hj0 & _ & Hcalls0).
  rewrite Heq in H. clear Heq. unfold status_after_lookup in H.
  destruct (db_read_fails env);
    [|destruct (extraction_jobs s !! jobId) as [j|] eqn:Hj;
      [destruct (bool_decide (ef_fileName j = "")) eqn:Hfn|]];
    cbn [fmap option_fmap option_map] in H.
  3: { unfold try_catch at 1, bind at 1 in H.
       destruct (probeKeys JSON_parse jobId (ef_fileName j)
                   (keysToTry jobId (ef_fileName j)) env s0) as [x s1] eqn:Hp.
       pose proof (probeKeys_calls _ _ _ _ _ _ _ _ Hp) as [Hc1 Hj1].
       rewrite Hfn in H. cbn [negb] in H. rewrite Hp in H.
       apply calls_within_trans with s1.
       - apply calls_within_trans with s0; [apply calls_within_same; exact Hcalls0|].
         eapply calls_within_mono; [|exact Hc1].
         intros c (k & Hk & Hck). exists j, k. auto.
       - apply calls_within_same.
         destruct x as [e|[resp|]]; repeat autounfold with monad_defs in H; cbn in H;
           [|simplify_eq; reflexivity|];
           repeat (case_match; cbn in H); rewrite ?getExtractionStatus_rethrow_eq in H;
           simplify_eq; reflexivity. }
  all: try rewrite Hfn in H.
  all: apply calls_within_same; rewrite <- Hcalls0.
  all: repeat autounfold with monad_defs in H; cbn in H.
  all: repeat (case_match; cbn in H); rewrite ?getExtractionStatus_rethrow_eq in H;
         simplify_eq; reflexivity.
Qed.

Lemma startExtraction_calls (JSON_stringify : ExtractionResult -> string)
    (env : Env) (s s' : State)
    (fileBuffer fileName mimeType userId targetLanguage : string)
    (preserveNames : bool) (jobId : string) (reply : EngineReply) r :
  startExtraction JSON_stringify fileBuffer fileName mimeType userId targetLanguage
    preserveNames jobId reply env s = (r, s') ->
  calls_within (fun c => c = CallUpload (original_key jobId fileName) \/
                         c = CallUpload (output_key jobId fileName)) s s'.
Proof.
  intros H. unfold startExtraction, callEngine, startExtraction_rethrow in H.
  repeat autounfold with monad_defs in H; cbn in H.
  repeat (first [ case_match | discriminate | progress simplify_eq/= ]);
    eexists; (split; [cbn; rewrite <- ?app_assoc; reflexivity|]); cbn;
    repeat (apply Forall_cons_2; [first [left; reflexivity | right; reflexivity]|]);
    apply Forall_nil_2.
Qed.

Lemma updateExtractionResult_calls (JSON_stringify : ExtractionResult -> string)
    (env : Env) (s s' : State) (jobId : string) (body_data : option ExtractionResult) r :
  updateExtractionResult JSON_stringify jobId body_data env s = (r, s') ->
  calls_within (fun c => exists j, extraction_jobs s' !! jobId = Some j /\
                           c = CallUpload (output_key jobId (ef_fileName j))) s s'.
Proof.
  intros H.
  unfold updateExtractionResult, getJobFromCache, updateJobResult in H.
  repeat autounfold with monad_defs in H; cbn in H.
  repeat (first [ case_match | discriminate | progress simplify_eq/= ]);
  try simplify_map_eq;
  first
    [ apply calls_within_same; reflexivity
    | eexists [_]; split; [reflexivity|];
      apply Forall_cons_2; [|apply Forall_nil_2];
      eexists; split; [cbn; simplify_map_eq; reflexivity|reflexivity] ].
Qed.

Lemma elem_of_keysToTry (jobId fileName k : string) :
  k ∈ keysToTry jobId fileName <->
  k = "output/" +:+ jobId +:+ "/" +:+ encodeURIComponent fileName +:+ ".json" \/
  k = "output/" +:+ jobId +:+ "/" +:+ fileName +:+ ".json".
Proof.
  unfold keysToTry, output_key, legacy_output_key.
  rewrite !elem_of_cons. split.
  - intros [H|[H|H]]; [left; exact H|right; exact H|apply not_elem_of_nil in H; contradiction].
  - intros [H|H]; [left; exact H|right; left; exact H].
Qed.

(** Claim C9: the bucket keys of the core are exactly
    [originals/{jobId}/{encodeURIComponent(fileName)}] for the original and
    [output/{jobId}/{encodeURIComponent(fileName)}.json] for the result, both
    written by [startExtraction] (a successful run writes both, in this
    order) and the result key also by [updateExtractionResult] (with the file
    name of the job record), while [getExtractionStatus] only reads the
    result key and the legacy key [output/{jobId}/{fileName}.json], with the
    file name of the job record. *)
Theorem blob_key_layout (JSON_stringify : ExtractionResult -> string)
    (JSON_parse : string -> option ExtractionResult) (env : Env) (s : State)
    (jobId : string) :
  (forall fileBuffer fileName mimeType userId targetLanguage preserveNames reply r s',
     startExtraction JSON_stringify fileBuffer fileName mimeType userId targetLanguage
       preserveNames jobId reply env s = (r, s') ->
     calls_within (fun c =>
         c = CallUpload ("originals/" +:+ jobId +:+ "/" +:+ encodeURIComponent fileName) \/
         c = CallUpload ("output/" +:+ jobId +:+ "/" +:+ encodeURIComponent fileName +:+ ".json"))
       s s' /\
     (forall res, r = inr res ->
        blob_calls s' = blob_calls s ++
          [CallUpload ("originals/" +:+ jobId +:+ "/" +:+ encodeURIComponent fileName);
           CallUpload ("output/" +:+ jobId +:+ "/" +:+ encodeURIComponent fileName +:+ ".json")])) /\
  (forall body_data r s',
     updateExtractionResult JSON_stringify jobId body_data env s = (r, s') ->
     calls_within (fun c => exists j, extraction_jobs s' !! jobId = Some j /\
         c = CallUpload ("output/" +:+ jobId +:+ "/" +:+ encodeURIComponent (ef_fileName j)
                         +:+ ".json"))
       s s') /\
  (forall r s',
     getExtractionStatus JSON_parse jobId env s = (r, s') ->
     calls_within (fun c => exists j k, extraction_jobs s !! jobId = Some j /\
         (k = "output/" +:+ jobId +:+ "/" +:+ encodeURIComponent (ef_fileName j) +:+ ".json" \/
          k = "output/" +:+ jobId +:+ "/" +:+ ef_fileName j +:+ ".json") /\
         (c = CallExists k \/ c = CallGet k))
       s s').
Proof.
  split_and!.
  - intros fileBuffer fileName mimeType userId targetLanguage preserveNames reply r s' H.
    split; [exact (startExtraction_calls _ _ _ _ _ _ _ _ _ _ _ _ _ H)|].
    intros res ->. apply startExtraction_success_inv in H as (d & _ & _ & _ & ->).
    cbn. rewrite <- app_assoc. reflexivity.
  - intros body_data r s' H. exact (updateExtractionResult_calls _ _ _ _ _ _ _ H).
  - intros r s' H. eapply calls_within_mono; [|exact (getExtractionStatus_calls _ _ _ _ _ _ H)].
    intros c (j & k & Hj & Hk & Hc). exists j, k. split_and!; auto.
    apply elem_of_keysToTry. exact Hk.
Qed.

(** ** C10: every job map entry is terminal and well-formed *)

Lemma cache_ok_insert (s : State) (m : gmap string CacheEntry) (jobId : string) (c : CacheEntry) :
  cache_ok s -> m = jobResultsMap s -> entry_ok c ->
  map_Forall (fun _ c => entry_ok c) (<[jobId := c]> m).
Proof. intros Hs -> Hc. apply map_Forall_insert_2; assumption. Qed.

Lemma startExtraction_cache_ok (JSON_stringify : ExtractionResult -> string)
    (env : Env) (s s' : State)
    (fileBuffer fileName mimeType userId targetLanguage : string)
    (preserveNames : bool) (jobId : string) (reply : EngineReply) r :
  cache_ok s ->
  startExtraction JSON_stringify fileBuffer fileName mimeType userId targetLanguage
    preserveNames jobId reply env s = (r, s') ->
  cache_ok s'.
Proof.
  intros Hs H. unfold startExtraction, callEngine, startExtraction_rethrow in H.
  repeat autounfold with monad_defs in H; cbn in H.
  repeat (first [ case_match | discriminate | progress simplify_eq/= ]);
    unfold cache_ok; cbn; (eapply cache_ok_insert; [exact Hs|reflexivity|]);
    cbn; eauto.
Qed.

Lemma getExtractionStatus_cache_ok (JSON_parse : string -> option ExtractionResult)
    (env : Env) (s s' : State) (jobId : string) r :
  cache_ok s -> getExtractionStatus JSON_parse jobId env s = (r, s') -> cache_ok s'.
Proof.
  intros Hs H.
  destruct (getExtractionStatus_outcome JSON_parse env s jobId)
    as (s1 & Heq & _ & _ & [Hm | (fn & d & Hm & _)]);
    rewrite Heq in H; simplify_eq; unfold cache_ok; rewrite Hm.
  - exact Hs.
  - eapply cache_ok_insert; [exact Hs|reflexivity|]. cbn. eauto.
Qed.

Lemma updateExtractionResult_cache_ok (JSON_stringify : ExtractionResult -> string)
    (env : Env) (s s' : State) (jobId : string) (body_data : option ExtractionResult) r :
  cache_ok s -> updateExtractionResult JSON_stringify jobId body_data env s = (r, s') ->
  cache_ok s'.
Proof.
  intros Hs H.
  unfold updateExtractionResult, getJobFromCache, updateJobResult in H.
  repeat autounfold with monad_defs in H; cbn in H.
  repeat (first [ case_match | discriminate | progress simplify_eq/= ]);
    unfold cache_ok; cbn;
    first [ exact Hs | eapply cache_ok_insert; [exact Hs|reflexivity|]; cbn; eauto ].
Qed.

Lemma extractDocument_cache_ok (JSON_stringify : ExtractionResult -> string)
    (env : Env) (s s' : State) (file : option UploadedFile)
    (sessionUser target_language : option string) (preserve_names : option bool)
    (jobId : string) (reply : EngineReply) r :
  cache_ok s ->
  extractDocument JSON_stringify file sessionUser target_language preserve_names
    jobId reply env s = (r, s') ->
  cache_ok s'.
Proof.
  intros Hs H. unfold extractDocument in H.
  destruct file as [f|]; [|unfold throw in H; simplify_eq; exact Hs].
  cbn zeta in H. unfold bind at 1 in H.
  match type of H with
  | (match ?st env s with _ => _ end) = _ =>
      destruct (st env s) as [[e|res] s1] eqn:Hst;
      pose proof (startExtraction_cache_ok _ _ _ _ _ _ _ _ _ _ _ _ _ Hs Hst) as Hok
  end.
  - simplify_eq. exact Hok.
  - unfold cache_ok in *.
    repeat autounfold with monad_defs in H; cbn in H.
    repeat (first [ case_match | discriminate | progress simplify_eq/= ]); exact Hok.
Qed.

(** Claim C10: the job map holds only terminal, well-formed entries: every
    entry has status [completed] or [failed] (the only two values of
    [CacheStatus]), a [completed] one carries data and a [failed] one an
    error and no data. Each of the operations that write the map
    ([startExtraction] on both paths, [getExtractionStatus] with its bucket
    fallback, [updateExtractionResult] and [updateJobResult], and
    [extractDocument] around [startExtraction]) keeps this invariant, and a
    poll answered from the map is never [pending] or [processing]. Bodies
    read back from the bucket are modelled as parsed into an
    [ExtractionResult] or failing to parse. *)
Theorem jobResultsMap_terminal (JSON_stringify : ExtractionResult -> string)
    (JSON_parse : string -> option ExtractionResult) (env : Env) (s : State) :
  cache_ok s ->
  (forall fileBuffer fileName mimeType userId targetLanguage preserveNames jobId reply r s',
     startExtraction JSON_stringify fileBuffer fileName mimeType userId targetLanguage
       preserveNames jobId reply env s = (r, s') -> cache_ok s') /\
  (forall jobId r s', getExtractionStatus JSON_parse jobId env s = (r, s') -> cache_ok s') /\
  (forall jobId body_data r s',
     updateExtractionResult JSON_stringify jobId body_data env s = (r, s') -> cache_ok s') /\
  (forall jobId data fileUrl fileName r s',
     updateJobResult jobId data fileUrl fileName env s = (r, s') -> cache_ok s') /\
  (forall file sessionUser target_language preserve_names jobId reply r s',
     extractDocument JSON_stringify file sessionUser target_language preserve_names
       jobId reply env s = (r, s') -> cache_ok s') /\
  (forall jobId c, jobResultsMap s !! jobId = Some c ->
     exists resp, getExtractionStatus JSON_parse jobId env s = (inr resp, s) /\
       sr_status resp <> Pending /\ sr_status resp <> Processing /\
       (sr_status resp = Completed -> is_Some (sr_data resp)) /\
       (sr_status resp = Failed -> sr_data resp = None /\ is_Some (sr_error resp))).
Proof.
  intros Hs. split_and!.
  - intros. eapply startExtraction_cache_ok; eauto.
  - intros. eapply getExtractionStatus_cache_ok; eauto.
  - intros. eapply updateExtractionResult_cache_ok; eauto.
  - intros jobId data fileUrl fileName r s' H.
    unfold updateJobResult in H. repeat autounfold with monad_defs in H. simplify_eq.
    unfold cache_ok. eapply cache_ok_insert; [exact Hs|reflexivity|]. cbn. eauto.
  - intros. eapply extractDocument_cache_ok; eauto.
  - intros jobId c Hc. exists (response_of_entry jobId c).
    split; [apply getExtractionStatus_cached; exact Hc|].
    pose proof (map_Forall_lookup_1 _ _ _ _ Hs Hc) as Hok. unfold entry_ok in Hok.
    unfold response_of_entry. cbn.
    destruct (ce_status c); cbn; split_and!; try discriminate; intros _; exact Hok.
Qed.

(** * Further properties of the code *)

(** ** The key encoding *)

Lemma nat_of_hex_digit (n : nat) :
  n < 16 -> nat_of_ascii (hex_digit n) = if n <? 10 then 48 + n else 55 + n.
Proof.
  intros Hn. unfold hex_digit.
  destruct (Nat.ltb_spec n 10); apply nat_ascii_embedding; lia.
Qed.

Lemma hex_digit_inj (a b : nat) : a < 16 -> b < 16 -> hex_digit a = hex_digit b -> a = b.
Proof.
  intros Ha Hb H. apply (f_equal nat_of_ascii) in H.
  rewrite !nat_of_hex_digit in H by lia.
  destruct (Nat.ltb_spec a 10), (Nat.ltb_spec b 10); lia.
Qed.

Lemma hex_digit_not_slash (n : nat) : n < 16 -> hex_digit n <> "/"%char.
Proof.
  intros Hn H. apply (f_equal nat_of_ascii) in H.
  rewrite nat_of_hex_digit in H by lia. change (nat_of_ascii "/") with 47 in H.
  destruct (Nat.ltb_spec n 10); lia.
Qed.

Lemma encodeURIComponent_app (s t : string) :
  encodeURIComponent (s +:+ t) = encodeURIComponent s +:+ encodeURIComponent t.
Proof. induction s as [|c s IH]; simpl; [done|]. rewrite IH. case_match; done. Qed.

Lemma encodeURIComponent_length (s : string) :
  String.length s <= String.length (encodeURIComponent s).
Proof. induction s as [|c s IH]; cbn; [lia|]. case_match; cbn; lia. Qed.

(** Property X1: what [encodeURIComponent] emits is made of unreserved
    characters, ["%"] and the hex digits [0-9A-F] only; in particular it never
    contains ["/"], so an encoded file name is a single path segment. *)
Theorem encodeURIComponent_charset (s : string) :
  Forall encoded_char (String.list_ascii_of_string (encodeURIComponent s)) /\
  "/"%char ∉ String.list_ascii_of_string (encodeURIComponent s).
Proof.
  assert (Hall : Forall encoded_char (String.list_ascii_of_string (encodeURIComponent s))).
  { induction s as [|c s IH]; cbn [encodeURIComponent String.list_ascii_of_string];
      [constructor|].
    pose proof (nat_ascii_bounded c).
    case_match; cbn [String.list_ascii_of_string]; repeat apply Forall_cons_2; try exact IH; unfold encoded_char; eauto.
    - right; right. eexists; split; [|reflexivity]. apply Nat.Div0.div_lt_upper_bound. lia.
    - right; right. eexists; split; [|reflexivity]. apply Nat.mod_upper_bound. lia. }
  split; [exact Hall|].
  intros Hin. eapply Forall_forall in Hall; [|exact Hin].
  destruct Hall as [Hu|[Hp|(n & Hn & Hh)]].
  - discriminate Hu.
  - discriminate Hp.
  - exact (hex_digit_not_slash n Hn (eq_sym Hh)).
Qed.

(** Property X2: [encodeURIComponent] is injective: two different file names
    never encode to the same string. *)
Theorem encodeURIComponent_injective (s t : string) :
  encodeURIComponent s = encodeURIComponent t -> s = t.
Proof.
  revert t. induction s as [|c s IH]; intros [|d t]; cbn [encodeURIComponent]; try done.
  - case_match; discriminate.
  - case_match; discriminate.
  - pose proof (nat_ascii_bounded c) as Bc. pose proof (nat_ascii_bounded d) as Bd.
    destruct (is_unreserved c) eqn:Hc, (is_unreserved d) eqn:Hd; intros H;
      injection H; clear H.
    + intros H ->. f_equal. apply IH, H.
    + intros _ ->. vm_compute in Hc. discriminate Hc.
    + intros _ <-. vm_compute in Hd. discriminate Hd.
    + intros Henc Hlo Hhi. f_equal; [|apply IH, Henc].
      change (hex_digit (nat_of_ascii c mod 16) = hex_digit (nat_of_ascii d mod 16)) in Hlo.
      change (hex_digit (nat_of_ascii c / 16) = hex_digit (nat_of_ascii d / 16)) in Hhi.
      apply hex_digit_inj in Hlo; [|apply Nat.mod_upper_bound; lia..].
      apply hex_digit_inj in Hhi; [|apply Nat.Div0.div_lt_upper_bound; lia..].
      rewrite <- (ascii_nat_embedding c), <- (ascii_nat_embedding d). f_equal.
      rewrite (Nat.div_mod_eq (nat_of_ascii c) 16), (Nat.div_mod_eq (nat_of_ascii d) 16).
      lia.
Qed.

Lemma encodeURIComponent_id (s : string) :
  encodeURIComponent s = s <-> forallb is_unreserved (String.list_ascii_of_string s) = true.
Proof.
  induction s as [|c s IH]; cbn; [done|].
  destruct (is_unreserved c) eqn:Hc; cbn.
  - rewrite <- IH. split; [congruence|]. intros ->. done.
  - split; [|done]. intros H. injection H as <- H.
    apply (f_equal String.length) in H. cbn in H.
    pose proof (encodeURIComponent_length s). lia.
Qed.

Lemma list_ascii_of_string_app (a b : string) :
  String.list_ascii_of_string (a +:+ b) =
  String.list_ascii_of_string a ++ String.list_ascii_of_string b.
Proof. induction a as [|c a IH]; simpl; [reflexivity|]. rewrite IH. reflexivity. Qed.

Lemma string_app_inv_tail (a b t : string) : a +:+ t = b +:+ t -> a = b.
Proof.
  intros H. apply (f_equal String.list_ascii_of_string) in H.
  rewrite !list_ascii_of_string_app in H. apply app_inv_tail in H.
  rewrite <- (String.string_of_list_ascii_of_string a), <- (String.string_of_list_ascii_of_string b).
  congruence.
Qed.

(** Cutting a string at its first ["/"]. *)
Lemma string_split_slash (j j' a b : string) :
  "/"%char ∉ String.list_ascii_of_string j ->
  "/"%char ∉ String.list_ascii_of_string j' ->
  j +:+ String "/" a = j' +:+ String "/" b -> j = j' /\ a = b.
Proof.
  revert j'. induction j as [|c j IH]; intros [|c' j'] Hj Hj' H; cbn in *.
  - injection H. auto.
  - injection H as Hc _. subst c'. destruct Hj'. left.
  - injection H as Hc _. subst c. destruct Hj. left.
  - injection H as Hc H. subst c'. apply not_elem_of_cons in Hj as [_ Hj].
    apply not_elem_of_cons in Hj' as [_ Hj'].
    destruct (IH j' Hj Hj' H) as [-> ->]. auto.
Qed.

(** Property X3: for job ids without ["/"], the original key and the
    result key determine the job id and the file name, and an original key
    is never a result key. *)
Theorem blob_keys_injective (jobId jobId' fileName fileName' : string) :
  "/"%char ∉ String.list_ascii_of_string jobId ->
  "/"%char ∉ String.list_ascii_of_string jobId' ->
  (original_key jobId fileName = original_key jobId' fileName' ->
     jobId = jobId' /\ fileName = fileName') /\
  (output_key jobId fileName = output_key jobId' fileName' ->
     jobId = jobId' /\ fileName = fileName') /\
  original_key jobId fileName <> output_key jobId' fileName'.
Proof.
  intros Hj Hj'. unfold original_key, output_key. split_and!.
  - intros H. apply (inj (String.append "originals/")) in H.
    destruct (string_split_slash _ _ _ _ Hj Hj' H) as [-> He].
    split; [reflexivity|]. apply encodeURIComponent_injective, He.
  - intros H. apply (inj (String.append "output/")) in H.
    destruct (string_split_slash _ _ _ _ Hj Hj' H) as [-> He].
    apply string_app_inv_tail in He.
    split; [reflexivity|]. apply encodeURIComponent_injective, He.
  - intros H. cbn in H. discriminate H.
Qed.

(** Property X4: the legacy result key coincides with the result key exactly
    when every character of the file name is unreserved. *)
Theorem legacy_output_key_eq_iff (jobId fileName : string) :
  (legacy_output_key jobId fileName = output_key jobId fileName <->
   forallb is_unreserved (String.list_ascii_of_string fileName) = true) /\
  (forall JSON_parse env s row,
     jobResultsMap s !! jobId = None -> db_read_fails env = false ->
     blob_read_fails env = false -> extraction_jobs s !! jobId = Some row ->
     ef_fileName row = fileName -> fileName <> "" ->
     forallb is_unreserved (String.list_ascii_of_string fileName) = true ->
     bucket s !! output_key jobId fileName = None ->
     blob_calls (snd (getExtractionStatus JSON_parse jobId env s)) =
       blob_calls s ++ [CallExists (output_key jobId fileName);
                        CallExists (output_key jobId fileName)]).
Proof.
  assert (Hiff : legacy_output_key jobId fileName = output_key jobId fileName <->
                 forallb is_unreserved (String.list_ascii_of_string fileName) = true).
  { rewrite <- encodeURIComponent_id. unfold legacy_output_key, output_key. split.
    - intros H. apply (inj (String.append "output/")) in H.
      apply (inj (String.append jobId)) in H. apply (inj (String.append "/")) in H.
      symmetry. apply (string_app_inv_tail _ _ _ H).
    - intros ->. reflexivity. }
  split; [exact Hiff|].
  intros JSON_parse env s row Hc Hdr Hbr Hrow Hfn Hne Hu Hk.
  rewrite (getExtractionStatus_miss _ _ _ _ Hc Hdr). rewrite Hrow.
  cbn [fmap option_fmap option_map]. rewrite Hfn.
  rewrite bool_decide_false by exact Hne.
  unfold keysToTry. rewrite (proj2 Hiff Hu). cbn [probeKeys].
  repeat autounfold with monad_defs; cbn - [tryOutputKey].
  erewrite (tryOutputKey_absent _ _ _ _ _ Hbr) by exact Hk. cbn - [tryOutputKey].
  erewrite (tryOutputKey_absent _ _ _ _ _ Hbr) by exact Hk. cbn.
  destruct (remote_status env jobId); cbn; [rewrite getExtractionStatus_rethrow_eq|];
    cbn; rewrite <- app_assoc; reflexivity.
Qed.

(** ** String helpers for [extractKeyFromUrl] *)

Lemma string_app_cons (c : ascii) (a b : string) : String c a +:+ b = String c (a +:+ b).
Proof. reflexivity. Qed.

Lemma string_app_assoc (a b c : string) : (a +:+ b) +:+ c = a +:+ (b +:+ c).
Proof. induction a as [|x a IH]; [reflexivity|]. exact (f_equal (String x) IH). Qed.

Lemma string_length_app (a b : string) :
  String.length (a +:+ b) = String.length a + String.length b.
Proof. induction a as [|x a IH]; [reflexivity|]. exact (f_equal S IH). Qed.

Lemma prefix_app (p x : string) : String.prefix p (p +:+ x) = true.
Proof.
  induction p as [|c p IH]; [destruct x; reflexivity|]. rewrite string_app_cons. cbn.
  destruct (ascii_dec c c); [exact IH | congruence].
Qed.

Lemma prefix_app_l (p q r : string) : String.prefix (p +:+ q) (p +:+ r) = String.prefix q r.
Proof.
  induction p as [|c p IH]; [reflexivity|]. rewrite !string_app_cons. cbn.
  destruct (ascii_dec c c); [exact IH | congruence].
Qed.

Lemma prefix_slash_false (b x : string) :
  b <> "" -> "/"%char ∉ String.list_ascii_of_string b ->
  String.prefix "/" (b +:+ x) = false.
Proof.
  destruct b as [|c b]; [congruence|]. intros _ Hb. rewrite string_app_cons.
  change (String.prefix "/" (String c (b +:+ x)))
    with (if ascii_dec "/" c then String.prefix "" (b +:+ x) else false).
  destruct (ascii_dec "/" c) as [<-|]; [destruct Hb; left | reflexivity].
Qed.

Lemma substring_from_shift (p x : string) (m : nat) :
  String.substring (String.length p) m (p +:+ x) = String.substring 0 m x.
Proof. induction p as [|c p IH]; [reflexivity|]. exact IH. Qed.

Lemma substring_full (x : string) : String.substring 0 (String.length x) x = x.
Proof. induction x as [|c x IH]; cbn; [reflexivity|]. rewrite IH. reflexivity. Qed.

Lemma substring_from_app (p x : string) (n : nat) :
  n = String.length p -> substring_from n (p +:+ x) = x.
Proof.
  intros ->. unfold substring_from. rewrite substring_from_shift, string_length_app.
  replace (String.length p + String.length x - String.length p) with (String.length x) by lia.
  apply substring_full.
Qed.

Lemma substring_from_length (n : nat) (s : string) :
  String.length (substring_from n s) = String.length s - n.
Proof.
  unfold substring_from. revert n. induction s as [|c s IH]; intros [|n]; cbn.
  - reflexivity.
  - reflexivity.
  - f_equal. specialize (IH 0). rewrite Nat.sub_0_r in IH. rewrite IH. lia.
  - apply IH.
Qed.

Lemma prefix_nonempty (p s : string) :
  p <> "" -> String.prefix p s = true -> s <> "".
Proof. destruct p, s; cbn; congruence. Qed.

Lemma prefix_length (p s : string) :
  String.prefix p s = true -> String.length p <= String.length s.
Proof.
  revert s. induction p as [|c p IH]; intros [|d s]; cbn; try (lia || congruence).
  destruct (ascii_dec c d); [|congruence]. intros H. apply IH in H. lia.
Qed.

Lemma prefix_split (p s : string) :
  String.prefix p s = true -> s = p +:+ substring_from (String.length p) s.
Proof.
  revert s. induction p as [|c p IH]; intros s H.
  - unfold substring_from. cbn. rewrite Nat.sub_0_r. symmetry. apply substring_full.
  - destruct s as [|d s]; [discriminate H|].
    change (String.prefix (String c p) (String d s))
      with (if ascii_dec c d then String.prefix p s else false) in H.
    destruct (ascii_dec c d) as [<-|]; [|discriminate H].
    rewrite string_app_cons. f_equal. exact (IH s H).
Qed.

Lemma replace_first_prefix (p x : string) :
  p <> "" -> replace_first p "" (p +:+ x) = x.
Proof.
  intros Hp. unfold replace_first.
  destruct p as [|c p]; [congruence|].
  pose proof (prefix_app (String c p) x) as Hpre. rewrite string_app_cons in Hpre |- *.
  cbn [String.index]. rewrite Hpre. cbn [String.substring].
  rewrite <- string_app_cons. apply (substring_from_app (String c p) x). lia.
Qed.

Lemma split_on_app (sep : ascii) (b key : string) :
  sep ∉ String.list_ascii_of_string b ->
  split_on sep (b +:+ String sep key) = b :: split_on sep key.
Proof.
  induction b as [|c b IH]; intros Hb.
  - change (split_on sep (String sep key) = "" :: split_on sep key). cbn [split_on].
    rewrite bool_decide_true by reflexivity. reflexivity.
  - rewrite string_app_cons. cbn [split_on]. apply not_elem_of_cons in Hb as [Hc Hb].
    rewrite (IH Hb), bool_decide_false by congruence. reflexivity.
Qed.

Lemma split_on_cons (sep : ascii) (s : string) : exists p ps, split_on sep s = p :: ps.
Proof.
  induction s as [|c s (p & ps & IH)]; cbn; [eauto|].
  rewrite IH. case_decide; eauto.
Qed.

Lemma join_with_cons (sep : ascii) (c : ascii) (p : string) (ps : list string) :
  join_with (String sep EmptyString) (String c p :: ps) =
  String c (join_with (String sep EmptyString) (p :: ps)).
Proof. destruct ps; reflexivity. Qed.

Lemma join_split (sep : ascii) (s : string) :
  join_with (String sep EmptyString) (split_on sep s) = s.
Proof.
  induction s as [|c s IH]; [reflexivity|]. cbn [split_on].
  destruct (split_on_cons sep s) as (p & ps & Hs). rewrite Hs in IH |- *. cbv beta iota zeta.
  destruct (decide (c = sep)) as [Hc|Hc];
    [rewrite bool_decide_true by exact Hc | rewrite bool_decide_false by exact Hc].
  - subst c.
    change (String sep (join_with (String sep EmptyString) (p :: ps)) = String sep s).
    rewrite IH. reflexivity.
  - rewrite join_with_cons, IH. reflexivity.
Qed.

(** ** Properties of [extractKeyFromUrl] *)

(** Property X5: [extractKeyFromUrl] inverts [s3://bucket/key] for a bucket
    without ["/"], whatever the key (empty segments and slashes included). *)
Theorem extractKeyFromUrl_s3 (URL_pathname : string -> option string)
    (bucketName b key : string) :
  "/"%char ∉ String.list_ascii_of_string b ->
  extractKeyFromUrl URL_pathname bucketName ("s3://" +:+ b +:+ "/" +:+ key) = inr key.
Proof.
  intros Hb. unfold extractKeyFromUrl, startsWith. rewrite prefix_app.
  rewrite replace_first_prefix by discriminate.
  change ("/" +:+ key) with (String "/" key). rewrite split_on_app by exact Hb.
  cbn [tail]. rewrite join_split. reflexivity.
Qed.

(** Property X6: for a non-[s3://] URL whose pathname is
    [/bucketName/key] or [//bucketName/key], [extractKeyFromUrl] returns
    [key], whatever [key] is. *)
Theorem extractKeyFromUrl_path_style (URL_pathname : string -> option string)
    (bucketName url key : string) :
  bucketName <> "" -> "/"%char ∉ String.list_ascii_of_string bucketName ->
  startsWith url "s3://" = false ->
  URL_pathname url = Some ("/" +:+ bucketName +:+ "/" +:+ key) \/
  URL_pathname url = Some ("//" +:+ bucketName +:+ "/" +:+ key) ->
  extractKeyFromUrl URL_pathname bucketName url = inr key.
Proof.
  intros Hne Hb Hs3 Hp. unfold extractKeyFromUrl. rewrite Hs3.
  assert (Hstrip : forall p, p = bucketName +:+ "/" +:+ key ->
            (if startsWith p (bucketName +:+ "/")
             then substring_from (String.length bucketName + 1) p else p) = key).
  { intros p ->. unfold startsWith.
    rewrite <- string_app_assoc, prefix_app.
    apply (substring_from_app (bucketName +:+ "/")).
    rewrite string_length_app. reflexivity. }
  destruct Hp as [Hp|Hp]; rewrite Hp; cbv zeta.
  - rewrite (substring_from_app "/") by reflexivity.
    assert (Hsl : startsWith (bucketName +:+ "/" +:+ key) "/" = false)
      by (apply prefix_slash_false; assumption).
    rewrite Hsl. f_equal. apply Hstrip. reflexivity.
  - change ("//" +:+ bucketName +:+ "/" +:+ key)
      with ("/" +:+ ("/" +:+ (bucketName +:+ "/" +:+ key))).
    rewrite (substring_from_app "/") by reflexivity.
    assert (Hsl : startsWith ("/" +:+ bucketName +:+ "/" +:+ key) "/" = true)
      by apply prefix_app.
    rewrite Hsl, (substring_from_app "/") by reflexivity.
    f_equal. apply Hstrip. reflexivity.
Qed.

Lemma extractKeyFromUrl_plain_path (URL_pathname : string -> option string)
    (bucketName url key : string) :
  startsWith url "s3://" = false ->
  URL_pathname url = Some ("/" +:+ key) ->
  startsWith key "/" = false -> startsWith key (bucketName +:+ "/") = false ->
  extractKeyFromUrl URL_pathname bucketName url = inr key.
Proof.
  intros Hs3 Hp H1 H2. unfold extractKeyFromUrl. rewrite Hs3, Hp. cbv zeta.
  rewrite (substring_from_app "/") by reflexivity. rewrite H1, H2. reflexivity.
Qed.

(** Property X7: for a non-[s3://] URL whose pathname is [/key],
    [extractKeyFromUrl] returns [key] exactly when [key] starts neither with
    ["/"] nor with [bucketName ++ "/"]; in every case it returns [key] with
    one prefix stripped, which is [""], ["/"], [bucketName ++ "/"] or
    ["/" ++ bucketName ++ "/"], and is empty exactly under that condition. *)
Theorem extractKeyFromUrl_virtual_hosted (URL_pathname : string -> option string)
    (bucketName url key : string) :
  startsWith url "s3://" = false ->
  URL_pathname url = Some ("/" +:+ key) ->
  (extractKeyFromUrl URL_pathname bucketName url = inr key <->
   startsWith key "/" = false /\ startsWith key (bucketName +:+ "/") = false) /\
  exists p k, extractKeyFromUrl URL_pathname bucketName url = inr k /\ key = p +:+ k /\
    p ∈ [""; "/"; bucketName +:+ "/"; "/" +:+ bucketName +:+ "/"] /\
    (p = "" <-> startsWith key "/" = false /\ startsWith key (bucketName +:+ "/") = false).
Proof.
  intros Hs3 Hp. unfold extractKeyFromUrl. rewrite Hs3, Hp. cbv zeta.
  rewrite (substring_from_app "/") by reflexivity.
  split; [split|].
  - intros H. injection H as H.
    destruct (startsWith key "/") eqn:H1.
    + exfalso.
      assert (Hk : key <> "") by (apply (prefix_nonempty "/"); [discriminate|exact H1]).
      assert (Hlt : String.length (substring_from 1 key) < String.length key).
      { rewrite substring_from_length. destruct key; [congruence|cbn; lia]. }
      destruct (startsWith (substring_from 1 key) (bucketName +:+ "/")).
      * apply (f_equal String.length) in H. rewrite substring_from_length in H. lia.
      * rewrite H in Hlt. lia.
    + split; [reflexivity|].
      destruct (startsWith key (bucketName +:+ "/")) eqn:H2; [|reflexivity].
      exfalso. apply prefix_length in H2. rewrite string_length_app in H2. cbn in H2.
      apply (f_equal String.length) in H. rewrite substring_from_length in H. lia.
  - intros [H1 H2]. rewrite H1, H2. reflexivity.
  - destruct (startsWith key "/") eqn:H1.
    + pose proof (prefix_split "/" key H1) as Hk1. cbn [String.length] in Hk1.
      set (k1 := substring_from 1 key) in *.
      destruct (startsWith k1 (bucketName +:+ "/")) eqn:H2.
      * pose proof (prefix_split _ _ H2) as Hk2. rewrite string_length_app in Hk2.
        cbn [String.length] in Hk2.
        set (k2 := substring_from (String.length bucketName + 1) k1) in *.
        exists ("/" +:+ bucketName +:+ "/"), k2.
        split_and!; [reflexivity | | rewrite list_elem_of_In; cbn; tauto | ].
        -- rewrite Hk1, Hk2, !string_app_assoc. reflexivity.
        -- split; [discriminate | intros [? _]; discriminate].
      * exists "/", k1.
        split_and!; [reflexivity | exact Hk1 | rewrite list_elem_of_In; cbn; tauto |].
        split; [discriminate | intros [? _]; discriminate].
    + destruct (startsWith key (bucketName +:+ "/")) eqn:H2.
      * pose proof (prefix_split _ _ H2) as Hk2. rewrite string_length_app in Hk2.
        cbn [String.length] in Hk2.
        exists (bucketName +:+ "/"), (substring_from (String.length bucketName + 1) key).
        split_and!; [reflexivity | exact Hk2 | rewrite list_elem_of_In; cbn; tauto |].
        split; [| intros [_ ?]; discriminate].
        intros H. apply (f_equal String.length) in H. rewrite string_length_app in H.
        cbn in H. lia.
      * exists "", key.
        split_and!; [reflexivity | reflexivity | rewrite list_elem_of_In; cbn; tauto |].
        split; [intros _; split; reflexivity | reflexivity].
Qed.

(** ** Status endpoint *)

(** Property X8: the status endpoint answers exactly what
    [ExtractionService.getExtractionStatus] answered; beyond the service's
    effects it only writes the job record and the log; an error, or a
    [pending] or [processing] answer, writes nothing; a failing record write
    only adds a warning. *)
Theorem ExtractionController_getExtractionStatus_passthrough
    (JSON_parse : string -> option ExtractionResult) (jobId : string) (env : Env)
    (s s1 : State) (r : Exn + ExtractionStatusResponse) :
  getExtractionStatus JSON_parse jobId env s = (r, s1) ->
  exists s2,
    ExtractionController_getExtractionStatus JSON_parse jobId env s = (r, s2) /\
    jobResultsMap s2 = jobResultsMap s1 /\ bucket s2 = bucket s1 /\
    blob_calls s2 = blob_calls s1 /\
    (match r with
     | inr st => sr_status st = Pending \/ sr_status st = Processing
     | inl _ => True
     end -> s2 = s1) /\
    (db_write_fails env = true ->
     extraction_jobs s2 = extraction_jobs s1 /\
     (s2 = s1 \/
      logs s2 = logs s1 ++ [LogWarn "Failed to update job record in database: database unavailable"])).
Proof.
  intros H. unfold ExtractionController_getExtractionStatus. unfold bind at 1. rewrite H.
  destruct r as [e|st]; [exists s1; split_and!; auto|].
  unfold updateExtractionJob_any.
  destruct (sr_status st) eqn:Hst;
    repeat autounfold with monad_defs; cbn -[getExtractionStatus];
    try (exists s1; split_and!; auto; fail).
  all: destruct (db_write_fails env) eqn:Hdw; cbn;
    [|destruct (extraction_jobs s1 !! jobId) eqn:Hj; cbn].
  all: eexists; split_and!;
    first [ reflexivity
          | intros [?|?]; discriminate
          | intros _; split; [reflexivity | right; reflexivity]
          | intros; congruence ].
Qed.

(** Property X9: when the service answers [completed] or [failed] and the
    job record exists, the status endpoint rewrites the record: status from
    the answer, [result] set to the answer's data (cleared when it carries
    none), [error] replaced only by a non-empty error. *)
Theorem ExtractionController_getExtractionStatus_record
    (JSON_parse : string -> option ExtractionResult) (jobId : string) (env : Env)
    (s s1 : State) (st : ExtractionStatusResponse) (row : ExtractedFile) :
  getExtractionStatus JSON_parse jobId env s = (inr st, s1) ->
  sr_status st = Completed \/ sr_status st = Failed ->
  db_write_fails env = false ->
  extraction_jobs s1 !! jobId = Some row ->
  exists s2,
    ExtractionController_getExtractionStatus JSON_parse jobId env s = (inr st, s2) /\
    extraction_jobs s2 =
      <[jobId := mkFile (ef_id row) (ef_userId row) (ef_fileName row) (ef_fileUrl row)
                   (job_status_string (sr_status st))
                   (match sr_error st with
                    | Some e => if bool_decide (e = "") then ef_error row else Some e
                    | None => ef_error row
                    end)
                   (sr_data st)]> (extraction_jobs s1).
Proof.
  intros H Hst Hdw Hj. unfold ExtractionController_getExtractionStatus. unfold bind at 1.
  rewrite H. unfold updateExtractionJob_any.
  destruct Hst as [Hst|Hst]; rewrite Hst;
    repeat autounfold with monad_defs; cbn -[getExtractionStatus];
    rewrite Hdw, Hj; cbn; eexists; split; try reflexivity;
    destruct (sr_error st) as [e|]; try reflexivity; case_decide; reflexivity.
Qed.

(** Property X10: after a successful [extractDocument] that creates the job
    record, one poll of the status endpoint answers [completed] with the
    extraction result and turns the record to [completed] with that result. *)
Theorem extractDocument_then_poll_endpoint
    (JSON_stringify : ExtractionResult -> string)
    (JSON_parse : string -> option ExtractionResult) (env : Env) (s s1 : State)
    (f : UploadedFile) (sessionUser target_language : option string)
    (preserve_names : option bool) (jobId : string) (reply : EngineReply)
    (res : ExtractionResponse) :
  extractDocument JSON_stringify (Some f) sessionUser target_language preserve_names
    jobId reply env s = (inr res, s1) ->
  jobId <> "" -> db_write_fails env = false -> extraction_jobs s !! jobId = None ->
  exists r s2,
    er_data res = Some r /\
    ExtractionController_getExtractionStatus JSON_parse jobId env s1 =
      (inr (mkStatus jobId Completed (er_file_url res) (Some r) None), s2) /\
    extraction_jobs s2 !! jobId =
      Some (mkFile jobId (or_else (default "" sessionUser) "test-user") (originalname f)
              (default "" (er_file_url res)) "completed" None (Some r)).
Proof.
  intros H Hj Hdw Hnone. unfold extractDocument in H. cbv zeta in H.
  unfold bind at 1 in H.
  destruct (startExtraction JSON_stringify (buffer f) (originalname f) (mimetype f)
              (or_else (default "" sessionUser) "test-user")
              (or_else (default "" target_language) "en")
              (negb (bool_decide (preserve_names = Some false))) jobId reply env s)
    as [[e|res0] s0] eqn:Hst; [discriminate H|].
  destruct (startExtraction_success_inv _ _ _ _ _ _ _ _ _ _ _ _ _ Hst)
    as (r & -> & Hb & -> & ->).
  cbn in H. rewrite bool_decide_false in H by exact Hj.
  repeat autounfold with monad_defs in H. cbn in H. rewrite Hdw in H. cbn in H.
  rewrite Hnone in H. cbn in H.
  injection H as <- <-.
  exists r. eexists. split; [reflexivity|].
  unfold ExtractionController_getExtractionStatus. unfold bind at 1.
  rewrite (getExtractionStatus_cached _ _ _ _
             (mkEntry CCompleted (object_url env (original_key jobId (originalname f)))
                (Some (originalname f)) (Some r) None))
    by (cbn; apply lookup_insert_eq).
  unfold updateExtractionJob_any. repeat autounfold with monad_defs. cbn.
  rewrite Hdw. cbn. simplify_map_eq. cbn.
  split; [reflexivity|]. simplify_map_eq. reflexivity.
Qed.

(** ** Original file links *)



(** Property X11: [getOriginalFileUrl] never throws and changes none of the
    job map, the job records, the bucket and the blob calls; its [url] is
    [null] when the record lookup fails, there is no record, the record's
    [fileUrl] is empty, the key cannot be extracted or signing fails. *)
Theorem getOriginalFileUrl_total (URL_pathname : string -> option string)
    (getSignedUrl : string -> string -> nat -> Exn + string)
    (jobId : string) (env : Env) (s : State) :
  exists s',
    getOriginalFileUrl URL_pathname getSignedUrl jobId env s =
      (inr (original_url_outcome URL_pathname getSignedUrl env (extraction_jobs s !! jobId)), s') /\
    jobResultsMap s' = jobResultsMap s /\ extraction_jobs s' = extraction_jobs s /\
    bucket s' = bucket s /\ blob_calls s' = blob_calls s.
Proof.
  unfold getOriginalFileUrl, original_url_outcome, getSignedDownloadUrl, extractKeyFromUrl_M.
  repeat autounfold with monad_defs. cbn -[extractKeyFromUrl].
  destruct (db_read_fails env); cbn -[extractKeyFromUrl];
    [eexists; split_and!; reflexivity|].
  destruct (extraction_jobs s !! jobId) as [j|]; cbn -[extractKeyFromUrl];
    [|eexists; split_and!; reflexivity].
  case_decide; cbn -[extractKeyFromUrl]; [eexists; split_and!; reflexivity|].
  destruct (extractKeyFromUrl URL_pathname (bucketName env) (ef_fileUrl j)) as [e|key];
    cbn; [eexists; split_and!; reflexivity|].
  destruct (getSignedUrl (bucketName env) key 3600); cbn; eexists; split_and!; reflexivity.
Qed.

(** Property X12: [StorageController.getSignedUrl] never throws and changes
    none of the stores; a missing or empty [fileUrl] gives the
    ["fileUrl is required"] reply, a failure gives an [error] reply. *)
Theorem StorageController_getSignedUrl_total (URL_pathname : string -> option string)
    (getSignedUrl : string -> string -> nat -> Exn + string)
    (body_fileUrl : option string) (env : Env) (s : State) :
  exists s',
    StorageController_getSignedUrl URL_pathname getSignedUrl body_fileUrl env s =
      (inr (signed_url_outcome URL_pathname getSignedUrl env body_fileUrl), s') /\
    jobResultsMap s' = jobResultsMap s /\ extraction_jobs s' = extraction_jobs s /\
    bucket s' = bucket s /\ blob_calls s' = blob_calls s.
Proof.
  unfold StorageController_getSignedUrl, signed_url_outcome, getSignedDownloadUrl,
    extractKeyFromUrl_M.
  destruct body_fileUrl as [fileUrl|]; [|eexists; split_and!; reflexivity].
  case_decide; [eexists; split_and!; reflexivity|].
  repeat autounfold with monad_defs. cbn -[extractKeyFromUrl].
  destruct (extractKeyFromUrl URL_pathname (bucketName env) fileUrl) as [e|key];
    cbn; [eexists; split_and!; reflexivity|].
  destruct (getSignedUrl (bucketName env) key 3600); cbn; eexists; split_and!; reflexivity.
Qed.

Lemma or_else_empty (a : string) : or_else a "" = a.
Proof. unfold or_else. destruct (bool_decide (a = "")) eqn:H; [|reflexivity].
  apply bool_decide_eq_true in H. subst a. reflexivity. Qed.

Lemma prefix_slash_segment (b p r : string) :
  "/"%char ∉ String.list_ascii_of_string b -> "/"%char ∉ String.list_ascii_of_string p ->
  String.prefix (b +:+ "/") (p +:+ String "/" r) = true -> b = p.
Proof.
  revert p. induction b as [|c b IH]; intros [|d p] Hb Hp H.
  - reflexivity.
  - exfalso.
    change ((if ascii_dec "/" d then String.prefix "" (p +:+ String "/" r) else false) = true)
      in H.
    destruct (ascii_dec "/" d) as [<-|]; [apply Hp; left | discriminate H].
  - exfalso.
    change ((if ascii_dec c "/" then String.prefix (b +:+ "/") r else false) = true) in H.
    destruct (ascii_dec c "/") as [->|]; [apply Hb; left | discriminate H].
  - change ((if ascii_dec c d then String.prefix (b +:+ "/") (p +:+ String "/" r)
             else false) = true) in H.
    destruct (ascii_dec c d) as [<-|]; [|discriminate H].
    apply not_elem_of_cons in Hb as [_ Hb]. apply not_elem_of_cons in Hp as [_ Hp].
    f_equal. exact (IH p Hb Hp H).
Qed.

(** The job record an extraction creates, and the job map entry it leaves. *)
Lemma extractDocument_recorded (JSON_stringify : ExtractionResult -> string)
    (env : Env) (s s1 : State) (f : UploadedFile)
    (sessionUser target_language : option string) (preserve_names : option bool)
    (jobId : string) (reply : EngineReply) (res : ExtractionResponse) :
  extractDocument JSON_stringify (Some f) sessionUser target_language preserve_names
    jobId reply env s = (inr res, s1) ->
  jobId <> "" -> db_write_fails env = false -> extraction_jobs s !! jobId = None ->
  exists r,
    er_data res = Some r /\
    er_file_url res = Some (object_url env (original_key jobId (originalname f))) /\
    jobResultsMap s1 !! jobId =
      Some (mkEntry CCompleted (object_url env (original_key jobId (originalname f)))
              (Some (originalname f)) (Some r) None) /\
    extraction_jobs s1 !! jobId =
      Some (mkFile jobId (or_else (default "" sessionUser) "test-user") (originalname f)
              (object_url env (original_key jobId (originalname f))) "pending" None None).
Proof.
  intros H Hj Hdw Hnone. unfold extractDocument in H. cbv zeta in H.
  unfold bind at 1 in H.
  destruct (startExtraction JSON_stringify (buffer f) (originalname f) (mimetype f)
              (or_else (default "" sessionUser) "test-user")
              (or_else (default "" target_language) "en")
              (negb (bool_decide (preserve_names = Some false))) jobId reply env s)
    as [[e|res0] s0] eqn:Hst; [discriminate H|].
  destruct (startExtraction_success_inv _ _ _ _ _ _ _ _ _ _ _ _ _ Hst)
    as (r & -> & Hb & -> & ->).
  cbn in H. rewrite bool_decide_false in H by exact Hj.
  repeat autounfold with monad_defs in H. cbn in H. rewrite Hdw in H. cbn in H.
  rewrite Hnone in H. cbn in H.
  injection H as <- <-. rewrite or_else_empty.
  exists r. split_and!; try reflexivity; cbn; simplify_map_eq; reflexivity.
Qed.

(** Property X13: after a successful [extractDocument] that creates the job
    record, [getOriginalFileUrl] signs exactly the original's key, provided
    [new URL] parses the stored URL and the bucket is not named
    ["originals"]. *)
Theorem extractDocument_then_original_file_url (URL_pathname : string -> option string)
    (getSignedUrl : string -> string -> nat -> Exn + string)
    (JSON_stringify : ExtractionResult -> string) (env : Env) (s s1 : State)
    (f : UploadedFile) (sessionUser target_language : option string)
    (preserve_names : option bool) (jobId : string) (reply : EngineReply)
    (res : ExtractionResponse) :
  extractDocument JSON_stringify (Some f) sessionUser target_language preserve_names
    jobId reply env s = (inr res, s1) ->
  jobId <> "" -> db_write_fails env = false -> db_read_fails env = false ->
  extraction_jobs s !! jobId = None ->
  "/"%char ∉ String.list_ascii_of_string (bucketName env) ->
  bucketName env <> "originals" ->
  URL_pathname (object_url env (original_key jobId (originalname f))) =
    Some ("/" +:+ original_key jobId (originalname f)) ->
  fst (getOriginalFileUrl URL_pathname getSignedUrl jobId env s1) =
    inr (match getSignedUrl (bucketName env) (original_key jobId (originalname f)) 3600 with
         | inr url => Some url
         | inl _ => None
         end).
Proof.
  intros H Hj Hdw Hdr Hnone Hbs Hbo Hp.
  destruct (extractDocument_recorded _ _ _ _ _ _ _ _ _ _ _ H Hj Hdw Hnone)
    as (r & _ & _ & _ & Hrec).
  assert (Hkey : extractKeyFromUrl URL_pathname (bucketName env)
                   (object_url env (original_key jobId (originalname f))) =
                 inr (original_key jobId (originalname f))).
  { apply extractKeyFromUrl_plain_path; [reflexivity | exact Hp | reflexivity |].
    destruct (startsWith (original_key jobId (originalname f)) (bucketName env +:+ "/"))
      eqn:Hs; [|reflexivity].
    exfalso. apply Hbo. unfold startsWith, original_key in Hs.
    change ("originals/" +:+ jobId +:+ "/" +:+ encodeURIComponent (originalname f))
      with ("originals" +:+ String "/" (jobId +:+ "/" +:+ encodeURIComponent (originalname f)))
      in Hs.
    apply prefix_slash_segment in Hs; [exact Hs | exact Hbs |].
    intros Hin. vm_compute in Hin. inversion Hin as [|? ? ? Hin']; subst.
    repeat match goal with
           | H : _ ∈ _ |- _ => inversion H; subst; clear H
           end. }
  unfold getOriginalFileUrl, getSignedDownloadUrl, extractKeyFromUrl_M.
  repeat autounfold with monad_defs. cbn -[extractKeyFromUrl].
  rewrite Hdr. cbn -[extractKeyFromUrl]. rewrite Hrec. cbn -[extractKeyFromUrl].
  rewrite bool_decide_false by (unfold object_url; discriminate).
  cbn -[extractKeyFromUrl]. rewrite Hkey. cbn.
  destruct (getSignedUrl (bucketName env) (original_key jobId (originalname f)) 3600);
    reflexivity.
Qed.

(** ** More on the service *)

(** Property X14: after a successful [updateExtractionResult] the job record
    is [completed] with the new data, the result blob holds the new data,
    and [getExtractionStatus] answers [completed] with it. *)
Theorem updateExtractionResult_success_stores (JSON_stringify : ExtractionResult -> string)
    (JSON_parse : string -> option ExtractionResult) (jobId : string)
    (d : ExtractionResult) (env : Env) (s s' : State) (res : UpdateResponse) :
  updateExtractionResult JSON_stringify jobId (Some d) env s = (inr res, s') ->
  exists j,
    extraction_jobs s' !! jobId = Some j /\ ef_status j = "completed" /\
    ef_result j = Some d /\
    bucket s' !! output_key jobId (ef_fileName j) = Some (JSON_stringify d) /\
    getExtractionStatus JSON_parse jobId env s' =
      (inr (mkStatus jobId Completed (Some (ef_fileUrl j)) (Some d) None), s').
Proof.
  intros H.
  unfold updateExtractionResult, getJobFromCache, updateJobResult in H.
  repeat autounfold with monad_defs in H; cbn in H.
  repeat (first [ case_match | discriminate | progress simplify_eq/= ]);
    try simplify_map_eq.
  all: eexists; split_and!;
    [ cbn; simplify_map_eq; reflexivity | reflexivity | reflexivity
    | cbn; simplify_map_eq; reflexivity
    | erewrite getExtractionStatus_cached by (cbn; apply lookup_insert_eq); reflexivity ].
Qed.

(** Property X15: [getExtractionStatus] throws only for a job absent from the
    job map whose remote status request failed, and then only one of three
    HTTP exceptions. *)
Theorem getExtractionStatus_error_cases (JSON_parse : string -> option ExtractionResult)
    (jobId : string) (env : Env) (s s' : State) (e : Exn) :
  getExtractionStatus JSON_parse jobId env s = (inl e, s') ->
  jobResultsMap s !! jobId = None /\
  (exists e0, remote_status env jobId = inl e0 /\ e = status_exn e0) /\
  (e = BadRequestException "Job not found" \/
   e = InternalServerErrorException "Python extraction service is not running." \/
   e = InternalServerErrorException "Failed to get extraction status").
Proof.
  intros H. destruct (getExtractionStatus_outcome JSON_parse env s jobId) as (s1 & Hr & _).
  rewrite Hr in H. injection H as H _. unfold status_outcome in H.
  destruct (jobResultsMap s !! jobId); [discriminate H|].
  repeat case_match; try discriminate H; injection H as <-.
  all: split; [reflexivity|]; split; [eauto|].
  all: unfold status_exn; repeat case_match; auto.
Qed.

(** Property X16: [startExtraction] fails only when a blob write fails or the
    engine gives no result; it then throws a typed HTTP exception, stores a
    [failed] entry for the job and leaves the job records alone. *)
Theorem startExtraction_failure_recorded (JSON_stringify : ExtractionResult -> string)
    (env : Env) (s s' : State)
    (fileBuffer fileName mimeType userId targetLanguage : string)
    (preserveNames : bool) (jobId : string) (reply : EngineReply) (e : Exn) :
  startExtraction JSON_stringify fileBuffer fileName mimeType userId targetLanguage
    preserveNames jobId reply env s = (inl e, s') ->
  (blob_write_fails env = true \/ forall r, reply <> EngineData (Some r)) /\
  ((exists m, e = BadRequestException m) \/ (exists m, e = InternalServerErrorException m)) /\
  (exists msg, jobResultsMap s' =
     <[jobId := mkEntry CFailed "" (Some fileName) None (Some msg)]> (jobResultsMap s)) /\
  extraction_jobs s' = extraction_jobs s.
Proof.
  unfold startExtraction. intros H.
  destruct (blob_write_fails env) eqn:Hb;
    [| destruct reply as [[r|]|err]];
    repeat autounfold with monad_defs in H; cbn in H; rewrite ?Hb in H; cbn in H;
    try discriminate H;
    first
      [ match type of H with
        | startExtraction_rethrow ?err ?env' ?st = _ =>
            destruct (startExtraction_rethrow_throws err env' st) as (e' & He' & Hty);
            rewrite He' in H; injection H as <- <-
        end
      | injection H as <- <- ];
    (split; [first [left; reflexivity | right; intros r' Hr'; discriminate Hr']|]);
    cbn; split_and!; eauto.
Qed.

(** ** Concrete runs *)

Import Fixture.

Lemma cache_ok_empty : cache_ok empty_state.
Proof. unfold cache_ok. apply map_Forall_empty. Qed.

(** Claim C6 (code bug): with no job record but a job map entry for [J1]
    that holds the file name ["my report.pdf"], [updateExtractionResult]
    recreates the record with file name ["unknown"] instead of the cached
    one, writes the edited result under [output/J1/unknown.json] and
    caches ["unknown"] as the file name: the reconstruction recovers the
    file URL but not the file name. *)
Lemma updateExtractionResult_reconstruct_fileName :
  jobResultsMap cached_only !! "J1" = Some entry1 /\
  ce_fileName entry1 = Some "my report.pdf" /\
  extraction_jobs cached_only !! "J1" = None /\
  fst (updateExtractionResult test_stringify "J1" (Some r2) env_ok cached_only) =
    inr (mkUpdate true "Extraction result updated successfully") /\
  (ef_fileName <$> extraction_jobs
     (snd (updateExtractionResult test_stringify "J1" (Some r2) env_ok cached_only)) !! "J1") =
    Some "unknown" /\
  (ef_fileUrl <$> extraction_jobs
     (snd (updateExtractionResult test_stringify "J1" (Some r2) env_ok cached_only)) !! "J1") =
    Some url1 /\
  (ce_fileName <$> jobResultsMap
     (snd (updateExtractionResult test_stringify "J1" (Some r2) env_ok cached_only)) !! "J1") =
    Some (Some "unknown") /\
  blob_calls (snd (updateExtractionResult test_stringify "J1" (Some r2) env_ok cached_only)) =
    [CallUpload "output/J1/unknown.json"].
Proof. vm_compute. split_and!; reflexivity. Qed.

(** Counterexample to claim C1: when the upload of the original fails, the
    job id is not forgotten: a later [getExtractionStatus] finds the job,
    as [failed] with the upload error. *)
Lemma upload_failure_job_visible :
  fst run_upload_failure = inl (InternalServerErrorException "Document extraction failed") /\
  getExtractionStatus test_parse "J1" env_blob_down (snd run_upload_failure) =
    (inr (mkStatus "J1" Failed (Some "") None (Some "Failed to upload file: S3 unavailable")),
     snd run_upload_failure).
Proof. vm_compute. split; reflexivity. Qed.

(** Counterexample to claim C5: the job record and the old result blob of
    [J1] exist, the job map has no entry, and the record update fails. The
    edit is reported as failed, but its blob write stays, and the next
    [getExtractionStatus] serves the edited result [r2]. *)
Lemma edit_half_applied_served :
  fst (updateExtractionResult test_stringify "J1" (Some r2) env_db_write_down recorded_only) =
    inl (BadRequestException "Failed to update extraction result: database unavailable") /\
  jobResultsMap
    (snd (updateExtractionResult test_stringify "J1" (Some r2) env_db_write_down recorded_only)) =
    jobResultsMap recorded_only /\
  fst (getExtractionStatus test_parse "J1" env_db_write_down
         (snd (updateExtractionResult test_stringify "J1" (Some r2) env_db_write_down
                 recorded_only))) =
    inr (mkStatus "J1" Completed (Some "") (Some r2) None) /\
  fst (getExtractionStatus test_parse "J1" env_db_write_down recorded_only) =
    inr (mkStatus "J1" Completed (Some "") (Some r1) None).
Proof. vm_compute. split_and!; reflexivity. Qed.

(** ** Witnesses: each claim theorem applied to a concrete run *)

Lemma extractDocument_upload_failure_witness :
  blob_write_fails env_blob_down = true /\
  fst run_upload_failure = inl (InternalServerErrorException "Document extraction failed") /\
  jobResultsMap (snd run_upload_failure) !! "J1" =
    Some (mkEntry CFailed "" (Some "my report.pdf") None
            (Some "Failed to upload file: S3 unavailable")).
Proof.
  destruct (extractDocument_upload_failure test_stringify test_parse env_blob_down
              empty_state (snd run_upload_failure) file1 None None None "J1"
              (EngineData (Some r1)) (fst run_upload_failure) eq_refl
              (surjective_pairing _))
    as (H1 & _ & _ & _ & H5 & _).
  split_and!; [reflexivity | exact H1 |].
  rewrite H5. apply lookup_insert_eq.
Defined.

Lemma getStatus_after_startExtraction_witness :
  exists res s', run_success = (inr res, s') /\
    exists r, er_data res = Some r /\
      getExtractionStatus test_parse "J1" env_ok s' =
        (inr (mkStatus "J1" Completed (er_file_url res) (Some r) None), s').
Proof.
  destruct run_success as [[e|res] s'] eqn:Hrun.
  - vm_compute in Hrun. discriminate Hrun.
  - exists res, s'. split; [reflexivity|].
    exact (getStatus_after_startExtraction test_stringify test_parse env_ok empty_state s'
             (buffer file1) (originalname file1) (mimetype file1) "test-user" "en" true
             "J1" (EngineData (Some r1)) res Hrun).
Defined.

Lemma getExtractionStatus_reconcile_witness :
  jobResultsMap legacy_only !! "J1" = None /\
  db_read_fails env_ok = false /\ blob_read_fails env_ok = false /\
  fst (getExtractionStatus test_parse "J1" env_ok legacy_only) =
    inr (mkStatus "J1" Completed (Some "") (Some r1) None).
Proof.
  destruct (getExtractionStatus_reconcile test_parse env_ok legacy_only "J1"
              ltac:(vm_compute; reflexivity) eq_refl eq_refl) as (_ & _ & H3 & _).
  split_and!; [vm_compute; reflexivity | reflexivity | reflexivity |].
  rewrite (H3 row1 (test_stringify r1) r1 ltac:(vm_compute; reflexivity)
             ltac:(vm_compute; discriminate) ltac:(vm_compute; reflexivity)
             ltac:(vm_compute; reflexivity) ltac:(vm_compute; reflexivity)).
  reflexivity.
Defined.

Lemma startExtraction_engine_failure_witness :
  blob_write_fails env_ok = false /\ err_message timeout_error <> "" /\
  exists msg, msg <> "" /\
    getExtractionStatus test_parse "J1" env_ok (snd run_timeout) =
      (inr (mkStatus "J1" Failed (Some "") None (Some msg)), snd run_timeout).
Proof.
  assert (Hm : err_message timeout_error <> "") by (vm_compute; discriminate).
  destruct (startExtraction_engine_failure test_stringify test_parse env_ok empty_state
              (snd run_timeout) (buffer file1) (originalname file1) (mimetype file1)
              "test-user" "en" true "J1" timeout_error (fst run_timeout) eq_refl Hm
              (surjective_pairing _))
    as (_ & _ & _ & _ & _ & _ & H7).
  split_and!; [reflexivity | exact Hm | exact H7].
Defined.

Lemma updateExtractionResult_strict_witness :
  jobResultsMap cached_only !! "J1" = Some entry1 /\
  getExtractionStatus test_parse "J1" env_db_write_down (snd run_edit_cached_db_down) =
    (inr (response_of_entry "J1" entry1), snd run_edit_cached_db_down) /\
  extraction_jobs recorded_only !! "J1" = Some row1 /\
  fst (getExtractionStatus test_parse "J1" env_db_write_down (snd run_edit_recorded_db_down)) =
    inr (mkStatus "J1" Completed (Some "") (Some r2) None).
Proof.
  destruct (updateExtractionResult_strict test_stringify test_parse env_db_write_down
              cached_only (snd run_edit_cached_db_down) "J1" (Some r2)
              (fst run_edit_cached_db_down) (surjective_pairing _))
    as (_ & _ & H3 & H4 & _).
  assert (Hc : jobResultsMap cached_only !! "J1" = Some entry1) by (vm_compute; reflexivity).
  assert (Hj : extraction_jobs recorded_only !! "J1" = Some row1) by (vm_compute; reflexivity).
  destruct (updateExtractionResult_strict test_stringify test_parse env_db_write_down
              recorded_only (snd run_edit_recorded_db_down) "J1" (Some r2)
              (fst run_edit_recorded_db_down) (surjective_pairing _))
    as (_ & _ & _ & _ & _ & H6).
  destruct (H6 r2 row1 eq_refl eq_refl eq_refl eq_refl Hj) as (_ & _ & H7).
  split_and!; [exact Hc | exact (H4 entry1 (H3 (or_intror eq_refl)) Hc) | exact Hj |].
  exact (H7 ltac:(vm_compute; reflexivity) eq_refl ltac:(vm_compute; discriminate)
            ltac:(vm_compute; reflexivity)).
Defined.

Lemma extractDocument_best_effort_witness :
  "J1" <> "" /\ db_write_fails env_db_write_down = true /\
  exists res s', run_record_failure = (inr res, s') /\
    last (logs s') =
      Some (LogWarn "Failed to create job record in database: database unavailable") /\
    extraction_jobs s' = extraction_jobs empty_state.
Proof.
  assert (Hj : "J1" <> "") by discriminate.
  split_and!; [exact Hj | reflexivity |].
  destruct run_record_failure as [[e|res] s'] eqn:Hrun.
  - vm_compute in Hrun. discriminate Hrun.
  - exists res, s'. split; [reflexivity|].
    exact (proj2 (extractDocument_best_effort test_stringify env_db_write_down empty_state
                    file1 None None None "J1" (EngineData (Some r1)))
             Hj eq_refl res s' Hrun).
Defined.

Lemma getExtractionStatus_idempotent_witness :
  fst run_poll = inr (mkStatus "J1" Completed (Some "") (Some r1) None) /\
  getExtractionStatus test_parse "J1" env_ok (snd run_poll) = (fst run_poll, snd run_poll) /\
  blob_calls (snd (getExtractionStatus test_parse "J1" env_ok (snd run_poll))) =
    blob_calls (snd run_poll).
Proof.
  destruct (getExtractionStatus_idempotent test_parse env_ok recorded_only (snd run_poll)
              "J1" (fst run_poll) (surjective_pairing _)) as [_ H2].
  assert (Hs : is_Some (jobResultsMap (snd run_poll) !! "J1")) by (vm_compute; eauto).
  split_and!; [vm_compute; reflexivity | exact (proj1 (H2 Hs)) | exact (proj2 (H2 Hs))].
Defined.

Lemma jobResultsMap_terminal_witness :
  cache_ok empty_state /\ cache_ok (snd run_upload_failure) /\ cache_ok (snd run_success).
Proof.
  destruct (jobResultsMap_terminal test_stringify test_parse env_blob_down empty_state
              cache_ok_empty) as (_ & _ & _ & _ & H5 & _).
  destruct (jobResultsMap_terminal test_stringify test_parse env_ok empty_state
              cache_ok_empty) as (H1 & _).
  split_and!; [exact cache_ok_empty | |].
  - exact (H5 _ _ _ _ _ _ _ _ (surjective_pairing _)).
  - exact (H1 _ _ _ _ _ _ _ _ _ _ (surjective_pairing _)).
Defined.

Lemma blob_key_layout_witness :
  blob_calls (snd run_success) =
    [CallUpload "originals/J1/my%20report.pdf"; CallUpload "output/J1/my%20report.pdf.json"].
Proof.
  destruct run_success as [[e|res] s'] eqn:Hrun; [vm_compute in Hrun; discriminate Hrun|].
  destruct (blob_key_layout test_stringify test_parse env_ok empty_state "J1") as (H1 & _ & _).
  cbn [snd].
  rewrite (proj2 (H1 (buffer file1) (originalname file1) (mimetype file1) "test-user" "en"
                    true (EngineData (Some r1)) _ _ Hrun) res eq_refl).
  vm_compute. reflexivity.
Defined.

(** ** Witnesses of the further properties *)

Lemma encodeURIComponent_injective_witness :
  encodeURIComponent "my report.pdf" = encodeURIComponent "my report.pdf" /\
  "my report.pdf" = "my report.pdf".
Proof. split; [reflexivity|]. apply encodeURIComponent_injective. reflexivity. Defined.

Lemma blob_keys_injective_witness :
  ("/"%char ∉ String.list_ascii_of_string "J1") /\
  (output_key "J1" "my report.pdf" = output_key "J1" "my report.pdf" ->
   "J1" = "J1" /\ "my report.pdf" = "my report.pdf").
Proof.
  assert (Hj : "/"%char ∉ String.list_ascii_of_string "J1")
    by (apply (bool_decide_unpack _); vm_compute; exact I).
  split; [exact Hj|].
  exact (proj1 (proj2 (blob_keys_injective "J1" "J1" "my report.pdf" "my report.pdf" Hj Hj))).
Defined.

Lemma extractKeyFromUrl_s3_witness :
  ("/"%char ∉ String.list_ascii_of_string "dastavej") /\
  extractKeyFromUrl test_pathname "dastavej"
    ("s3://" +:+ "dastavej" +:+ "/" +:+ "originals/J1/my%20report.pdf") =
    inr "originals/J1/my%20report.pdf".
Proof.
  assert (Hb : "/"%char ∉ String.list_ascii_of_string "dastavej")
    by (apply (bool_decide_unpack _); vm_compute; exact I).
  split; [exact Hb|]. apply extractKeyFromUrl_s3. exact Hb.
Defined.

Lemma extractKeyFromUrl_path_style_witness :
  test_pathname "https://t3.storage.dev/dastavej/originals/J1/my%20report.pdf" =
    Some ("/" +:+ "dastavej" +:+ "/" +:+ "originals/J1/my%20report.pdf") /\
  extractKeyFromUrl test_pathname "dastavej"
    "https://t3.storage.dev/dastavej/originals/J1/my%20report.pdf" =
    inr "originals/J1/my%20report.pdf".
Proof.
  split; [vm_compute; reflexivity|].
  apply extractKeyFromUrl_path_style.
  - discriminate.
  - apply (bool_decide_unpack _); vm_compute; exact I.
  - vm_compute. reflexivity.
  - left. vm_compute. reflexivity.
Defined.

Lemma extractKeyFromUrl_virtual_hosted_witness :
  test_pathname url1 = Some ("/" +:+ original_key "J1" "my report.pdf") /\
  (extractKeyFromUrl test_pathname "dastavej" url1 = inr (original_key "J1" "my report.pdf") <->
   startsWith (original_key "J1" "my report.pdf") "/" = false /\
   startsWith (original_key "J1" "my report.pdf") ("dastavej" +:+ "/") = false) /\
  exists p k, extractKeyFromUrl test_pathname "dastavej" url1 = inr k /\
    original_key "J1" "my report.pdf" = p +:+ k /\
    p ∈ [""; "/"; "dastavej" +:+ "/"; "/" +:+ "dastavej" +:+ "/"] /\
    (p = "" <-> startsWith (original_key "J1" "my report.pdf") "/" = false /\
                startsWith (original_key "J1" "my report.pdf") ("dastavej" +:+ "/") = false).
Proof.
  assert (Hp : test_pathname url1 = Some ("/" +:+ original_key "J1" "my report.pdf"))
    by (vm_compute; reflexivity).
  split; [exact Hp|].
  apply extractKeyFromUrl_virtual_hosted; [vm_compute; reflexivity | exact Hp].
Defined.

Lemma ExtractionController_getExtractionStatus_passthrough_witness :
  exists s2,
    ExtractionController_getExtractionStatus test_parse "J1" env_ok recorded_only =
      (fst run_poll, s2) /\
    jobResultsMap s2 = jobResultsMap (snd run_poll).
Proof.
  destruct (ExtractionController_getExtractionStatus_passthrough test_parse "J1" env_ok
              recorded_only (snd run_poll) (fst run_poll) (surjective_pairing _))
    as (s2 & H1 & H2 & _).
  exists s2. split; assumption.
Defined.

Lemma ExtractionController_getExtractionStatus_record_witness :
  exists s2,
    ExtractionController_getExtractionStatus test_parse "J1" env_ok recorded_only =
      (inr (blob_response "J1" r1), s2) /\
    extraction_jobs s2 !! "J1" =
      Some (mkFile "J1" "user-1" "my report.pdf" url1 "completed" None (Some r1)).
Proof.
  destruct (ExtractionController_getExtractionStatus_record test_parse "J1" env_ok
              recorded_only (snd run_poll) (blob_response "J1" r1) row1)
    as (s2 & H1 & H2).
  - vm_compute. reflexivity.
  - left. reflexivity.
  - reflexivity.
  - vm_compute. reflexivity.
  - exists s2. split; [exact H1|]. rewrite H2. vm_compute. reflexivity.
Defined.

Lemma extractDocument_then_poll_endpoint_witness :
  exists res s1,
    extractDocument test_stringify (Some file1) None None None "J1" (EngineData (Some r1))
      env_ok empty_state = (inr res, s1) /\
    exists r s2,
      er_data res = Some r /\
      ExtractionController_getExtractionStatus test_parse "J1" env_ok s1 =
        (inr (mkStatus "J1" Completed (er_file_url res) (Some r) None), s2) /\
      extraction_jobs s2 !! "J1" =
        Some (mkFile "J1" "test-user" "my report.pdf" (default "" (er_file_url res))
                "completed" None (Some r)).
Proof.
  destruct (extractDocument test_stringify (Some file1) None None None "J1"
              (EngineData (Some r1)) env_ok empty_state) as [[e|res] s1] eqn:Hrun;
    [vm_compute in Hrun; discriminate Hrun|].
  exists res, s1. split; [reflexivity|].
  exact (extractDocument_then_poll_endpoint test_stringify test_parse env_ok empty_state s1
           file1 None None None "J1" (EngineData (Some r1)) res Hrun
           ltac:(discriminate) eq_refl eq_refl).
Defined.

Lemma extractDocument_then_original_file_url_witness :
  exists res s1,
    extractDocument test_stringify (Some file1) None None None "J1" (EngineData (Some r1))
      env_ok empty_state = (inr res, s1) /\
    fst (getOriginalFileUrl test_pathname test_sign "J1" env_ok s1) =
      inr (Some ("https://dastavej.t3.storage.dev/" +:+ original_key "J1" "my report.pdf"
                 +:+ "?X-Amz-Expires=3600")).
Proof.
  destruct (extractDocument test_stringify (Some file1) None None None "J1"
              (EngineData (Some r1)) env_ok empty_state) as [[e|res] s1] eqn:Hrun;
    [vm_compute in Hrun; discriminate Hrun|].
  exists res, s1. split; [reflexivity|].
  exact (extractDocument_then_original_file_url test_pathname test_sign test_stringify
           env_ok empty_state s1 file1 None None None "J1" (EngineData (Some r1)) res Hrun
           ltac:(discriminate) eq_refl eq_refl eq_refl
           ltac:(apply (bool_decide_unpack _); vm_compute; exact I)
           ltac:(discriminate) ltac:(vm_compute; reflexivity)).
Defined.

Lemma updateExtractionResult_success_stores_witness :
  exists res s',
    updateExtractionResult test_stringify "J1" (Some r2) env_ok recorded_only = (inr res, s') /\
    exists j,
      extraction_jobs s' !! "J1" = Some j /\ ef_status j = "completed" /\
      ef_result j = Some r2 /\
      bucket s' !! output_key "J1" (ef_fileName j) = Some (test_stringify r2) /\
      getExtractionStatus test_parse "J1" env_ok s' =
        (inr (mkStatus "J1" Completed (Some (ef_fileUrl j)) (Some r2) None), s').
Proof.
  destruct (updateExtractionResult test_stringify "J1" (Some r2) env_ok recorded_only)
    as [[e|res] s'] eqn:Hrun; [vm_compute in Hrun; discriminate Hrun|].
  exists res, s'. split; [reflexivity|].
  exact (updateExtractionResult_success_stores test_stringify test_parse "J1" r2 env_ok
           recorded_only s' res Hrun).
Defined.

Lemma getExtractionStatus_error_cases_witness :
  exists e s',
    getExtractionStatus test_parse "J2" env_ok empty_state = (inl e, s') /\
    e = BadRequestException "Job not found".
Proof.
  destruct (getExtractionStatus test_parse "J2" env_ok empty_state)
    as [[e|st] s'] eqn:Hrun; [|vm_compute in Hrun; discriminate Hrun].
  exists e, s'. split; [reflexivity|].
  destruct (getExtractionStatus_error_cases test_parse "J2" env_ok empty_state s' e Hrun)
    as (_ & (e0 & He0 & ->) & _).
  vm_compute in He0. injection He0 as <-. vm_compute. reflexivity.
Defined.

Lemma startExtraction_failure_recorded_witness :
  exists e s', run_timeout = (inl e, s') /\
    exists msg, jobResultsMap s' =
      <[ "J1" := mkEntry CFailed "" (Some "my report.pdf") None (Some msg)]> (jobResultsMap empty_state).
Proof.
  destruct run_timeout as [[e|res] s'] eqn:Hrun; [|vm_compute in Hrun; discriminate Hrun].
  exists e, s'. split; [reflexivity|].
  exact (proj1 (proj2 (proj2
    (startExtraction_failure_recorded test_stringify env_ok empty_state s'
       (buffer file1) (originalname file1) (mimetype file1) "test-user" "en" true "J1"
       (EngineError timeout_error) e Hrun)))).
Defined.

Lemma legacy_output_key_eq_iff_witness :
  blob_calls (snd (getExtractionStatus test_parse "J1" env_ok recorded_no_blob)) =
    [CallExists (output_key "J1" "report.pdf"); CallExists (output_key "J1" "report.pdf")].
Proof.
  destruct (legacy_output_key_eq_iff "J1" "report.pdf") as [_ H].
  exact (H test_parse env_ok recorded_no_blob row_plain ltac:(vm_compute; reflexivity)
           eq_refl eq_refl ltac:(vm_compute; reflexivity) eq_refl
           ltac:(vm_compute; discriminate) ltac:(vm_compute; reflexivity)
           ltac:(vm_compute; reflexivity)).
Defined.
